(** * cptdl.utilities: URL templates, credential store and streaming download

    A shallow embedding of [src/cptdl/utilities.py].

    Conventions of the embedding:
    - a Python [str] is a [string] (characters with code points below 256),
      a Python [bytes] object is a [list byte];
    - a function that performs I/O is a function from a [world] to an
      [outcome] and the world it leaves behind; the world is kept when an
      exception is raised, as the effects that preceded it stay;
    - everything the module consumes from outside (the HTTP transport, the
      json and text codecs, the password prompt, path resolution, the
      dataset parsers, the names visible at module level) is a field of the
      class [Platform];
    - the interpreter is CPython up to 3.12: inside a function [locals()]
      returns the frame's dictionary, which a later [eval] reuses, and the
      optional limit on integer-to-string conversion is disabled. *)

From stdpp Require Import base strings gmap list pretty.
From Stdlib Require Import ZArith Ascii String.
From Stdlib.Strings Require Import Byte.

Local Open Scope string_scope.
Local Open Scope list_scope.
Local Open Scope Z_scope.

(** ** Characters the embedding has to spell out *)

Definition dquote : ascii := ascii_of_nat 34.
Definition squote : ascii := "'"%char.
Definition backslash : ascii := "\"%char.
Definition char_LF : ascii := ascii_of_nat 10.
Definition char_CR : ascii := ascii_of_nat 13.
Definition char_TAB : ascii := ascii_of_nat 9.

Definition code (c : ascii) : Z := Z.of_N (N_of_ascii c).

Definition str1 (c : ascii) : string := String c "".

Fixpoint contains_char (c : ascii) (s : string) : bool :=
  match s with
  | EmptyString => false
  | String d t => if Ascii.eqb c d then true else contains_char c t
  end.

Fixpoint repeat_char (c : ascii) (n : nat) : string :=
  match n with
  | O => ""
  | S k => String c (repeat_char c k)
  end.

(** [needle in haystack] on Python strings. *)
Fixpoint str_in (needle haystack : string) : bool :=
  if String.prefix needle haystack then true
  else match haystack with
       | EmptyString => false
       | String _ t => str_in needle t
       end.

(** ** Python values *)

(** The values a keyword parameter can take in the model. [VObj] stands for
    an object the model does not look into (a function, a module, a date):
    it only carries the texts [str()] and [repr()] give for it, and any
    other operation on it is outside the model. Floats are not modelled. *)
#[warnings="-register-all"]
Inductive value : Type :=
| VNone
| VBool (b : bool)
| VInt (n : Z)
| VStr (s : string)
| VDict (items : list (string * value))
| VObj (shown : string) (repr : string).

(** The exceptions that occur in the module. *)
Inductive exn : Type :=
| NameError (name : string)
| KeyError (key : value)
| IndexError
| TypeError
| UnicodeDecodeError
| ValueError
| OSError
| AssertionError (msg : string)
| HTTPError (status : Z)
| ConnectionError
| PyCPT_ERROR (msg : string).

(** What a call does: it returns, it raises, or it leaves the part of Python
    that is modelled, in which case the model says nothing about it. *)
Inductive outcome (A : Type) : Type :=
| Ok (a : A)
| Raise (e : exn)
| Unmodelled.
Arguments Ok {A} a.
Arguments Raise {A} e.
Arguments Unmodelled {A}.

Definition obind {A B} (o : outcome A) (k : A -> outcome B) : outcome B :=
  match o with
  | Ok a => k a
  | Raise e => Raise e
  | Unmodelled => Unmodelled
  end.

(** *** [repr] and [str] *)

Definition hexdigit (n : Z) : ascii :=
  match String.get (Z.to_nat n) "0123456789abcdef" with
  | Some c => c
  | None => "0"%char
  end.

(** [str.isprintable] on one character below 256: the ASCII range without
    the controls, and Latin-1 from 0xa1 on without the soft hyphen. *)
Definition printable (c : ascii) : bool :=
  let n := code c in
  ((32 <=? n) && (n <? 127)) || ((161 <=? n) && negb (n =? 173)).

Definition repr_char (quote c : ascii) : string :=
  if Ascii.eqb c quote || Ascii.eqb c backslash then String backslash (str1 c)
  else if Ascii.eqb c char_TAB then "\t"
  else if Ascii.eqb c char_LF then "\n"
  else if Ascii.eqb c char_CR then "\r"
  else if printable c then str1 c
  else "\x" +:+ String (hexdigit (code c / 16)) (str1 (hexdigit (code c mod 16))).

Fixpoint repr_chars (quote : ascii) (s : string) : string :=
  match s with
  | EmptyString => ""
  | String c t => repr_char quote c +:+ repr_chars quote t
  end.

(** [repr] of a [str]: single quotes, unless the text has a single quote and
    no double quote. *)
Definition repr_str (s : string) : string :=
  let quote :=
    if contains_char squote s && negb (contains_char dquote s)
    then dquote else squote in
  String quote (repr_chars quote s +:+ str1 quote).

Definition py_bool (b : bool) : string := if b then "True" else "False".

Fixpoint py_repr (v : value) : string :=
  match v with
  | VNone => "None"
  | VBool b => py_bool b
  | VInt n => pretty n
  | VStr s => repr_str s
  | VDict items =>
      let fix entries (l : list (string * value)) : string :=
        match l with
        | [] => ""
        | [(k, x)] => repr_str k +:+ ": " +:+ py_repr x
        | (k, x) :: rest => repr_str k +:+ ": " +:+ py_repr x +:+ ", " +:+ entries rest
        end in
      "{" +:+ entries items +:+ "}"
  | VObj _ repr => repr
  end.

(** [str(v)], which is also what an f-string field without a format
    specification inserts. *)
Definition py_str (v : value) : string :=
  match v with
  | VStr s => s
  | VObj shown _ => shown
  | _ => py_repr v
  end.

(** ** Dictionaries with string keys, in insertion order *)

Fixpoint assoc {A} (k : string) (l : list (string * A)) : option A :=
  match l with
  | [] => None
  | (k', v) :: rest => if String.eqb k k' then Some v else assoc k rest
  end.

Fixpoint remove_key {A} (k : string) (l : list (string * A)) : list (string * A) :=
  match l with
  | [] => []
  | (k', v) :: rest =>
      if String.eqb k k' then remove_key k rest else (k', v) :: remove_key k rest
  end.

(** [s[i]] on a string, with Python's negative indices. *)
Definition str_index (s : string) (i : Z) : outcome value :=
  let n := Z.of_nat (String.length s) in
  let j := if i <? 0 then i + n else i in
  if (0 <=? j) && (j <? n) then
    match String.get (Z.to_nat j) s with
    | Some c => Ok (VStr (str1 c))
    | None => Raise IndexError
    end
  else Raise IndexError.

(** [o[k]]. Subscripting an opaque object, or using one as a key, is outside
    the model. *)
Definition subscript (o k : value) : outcome value :=
  match o with
  | VDict items =>
      match k with
      | VStr s =>
          match assoc s items with
          | Some v => Ok v
          | None => Raise (KeyError k)
          end
      | VDict _ => Raise TypeError
      | VObj _ _ => Unmodelled
      | _ => Raise (KeyError k)
      end
  | VStr s =>
      match k with
      | VInt i => str_index s i
      | VBool b => str_index s (if b then 1 else 0)
      | VObj _ _ => Unmodelled
      | _ => Raise TypeError
      end
  | VObj _ _ => Unmodelled
  | _ => Raise TypeError
  end.

(** ** The f-string fragment

    [evaluate_url] hands the text [f"<template>"] to [eval]. The model reads
    the part of the f-string syntax on which the interpreters agree:
    - literal text made of printable ASCII characters other than the double
      quote, the backslash and the braces;
    - the doubled braces, which stand for one brace;
    - a field [{e}] where [e] is a name, [True], [False], [None], a
      single-quoted text of letters, digits and underscores, or one of
      these followed by subscripts [[a]] whose index [a] is a name or such
      a text.
    Any other template is outside the model: [parse_template] answers
    [None] and the evaluation is [Unmodelled]. *)

Inductive expr : Type :=
| EName (x : string)
| ELit (v : value)
| ESub (e k : expr).

Inductive piece : Type :=
| Lit (c : ascii)
| Field (e : expr).

Definition is_digit (c : ascii) : bool := (48 <=? code c) && (code c <=? 57).

Definition is_ident_char (c : ascii) : bool :=
  let n := code c in
  ((97 <=? n) && (n <=? 122)) || ((65 <=? n) && (n <=? 90))
  || is_digit c || (n =? 95).

Definition is_text_char (c : ascii) : bool :=
  let n := code c in
  (32 <=? n) && (n <=? 126)
  && negb (Ascii.eqb c dquote) && negb (Ascii.eqb c backslash)
  && negb (Ascii.eqb c "{"%char) && negb (Ascii.eqb c "}"%char).

Definition is_field_char (c : ascii) : bool :=
  is_ident_char c || Ascii.eqb c squote
  || Ascii.eqb c "["%char || Ascii.eqb c "]"%char.

(** The reserved words of the language other than the three constants. *)
Definition keywords : list string :=
  ["and"; "as"; "assert"; "async"; "await"; "break"; "class"; "continue";
   "def"; "del"; "elif"; "else"; "except"; "finally"; "for"; "from";
   "global"; "if"; "import"; "in"; "is"; "lambda"; "nonlocal"; "not"; "or";
   "pass"; "raise"; "return"; "try"; "while"; "with"; "yield"].

Fixpoint mem_string (x : string) (l : list string) : bool :=
  match l with
  | [] => false
  | y :: rest => if String.eqb x y then true else mem_string x rest
  end.

(** *** Tokens of a field *)

Inductive token : Type :=
| TName (x : string)
| TText (s : string)
| TOpen
| TClose.

(** What the scanner is in the middle of, with the text read so far. *)
Inductive scanning : Type :=
| Idle
| InName (acc : string)
| InText (acc : string)
| AfterText.

Fixpoint tokens (st : scanning) (s : string) : option (list token) :=
  match s with
  | EmptyString =>
      match st with
      | Idle | AfterText => Some []
      | InName acc => Some [TName acc]
      | InText _ => None
      end
  | String c t =>
      match st with
      | InText acc =>
          if Ascii.eqb c squote then
            cons (TText acc) <$> tokens AfterText t
          else if is_ident_char c then tokens (InText (acc +:+ str1 c)) t
          else None
      | InName acc =>
          if is_ident_char c then tokens (InName (acc +:+ str1 c)) t
          else if Ascii.eqb c "["%char then
            (fun r => TName acc :: TOpen :: r) <$> tokens Idle t
          else if Ascii.eqb c "]"%char then
            (fun r => TName acc :: TClose :: r) <$> tokens Idle t
          else None
      | Idle | AfterText =>
          if Ascii.eqb c "["%char then cons TOpen <$> tokens Idle t
          else if Ascii.eqb c "]"%char then cons TClose <$> tokens Idle t
          else match st with
               | AfterText => None
               | _ =>
                   if Ascii.eqb c squote then tokens (InText "") t
                   else if is_ident_char c then tokens (InName (str1 c)) t
                   else None
               end
      end
  end.

(** *** Expressions *)

Definition atom (tk : token) : option expr :=
  match tk with
  | TText s => Some (ELit (VStr s))
  | TName x =>
      match x with
      | EmptyString => None
      | String c _ =>
          if is_digit c then None
          else if String.eqb x "True" then Some (ELit (VBool true))
          else if String.eqb x "False" then Some (ELit (VBool false))
          else if String.eqb x "None" then Some (ELit VNone)
          else if mem_string x keywords then None
          else Some (EName x)
      end
  | _ => None
  end.

Fixpoint trailers (e : expr) (tks : list token) : option expr :=
  match tks with
  | [] => Some e
  | TOpen :: a :: TClose :: rest =>
      match atom a with
      | Some k => trailers (ESub e k) rest
      | None => None
      end
  | _ => None
  end.

Definition parse_expr (s : string) : option expr :=
  match tokens Idle s with
  | Some (a :: rest) =>
      match atom a with
      | Some e => trailers e rest
      | None => None
      end
  | _ => None
  end.

(** *** Templates *)

(** [field = None]: in literal text; [field = Some acc]: inside a field
    whose text so far is [acc]. *)
Fixpoint pieces (field : option string) (s : string) : option (list piece) :=
  match field with
  | Some acc =>
      match s with
      | EmptyString => None
      | String c t =>
          if Ascii.eqb c "}"%char then
            match parse_expr acc with
            | Some e => cons (Field e) <$> pieces None t
            | None => None
            end
          else if is_field_char c then pieces (Some (acc +:+ str1 c)) t
          else None
      end
  | None =>
      match s with
      | EmptyString => Some []
      | String "{" (String "{" t) => cons (Lit "{"%char) <$> pieces None t
      | String "}" (String "}" t) => cons (Lit "}"%char) <$> pieces None t
      | String "{" t => pieces (Some "") t
      | String c t =>
          if is_text_char c then cons (Lit c) <$> pieces None t else None
      end
  end.

Definition parse_template (s : string) : option (list piece) := pieces None s.

(** The source text ['f"{}"'.format(url)]. *)
Definition fstring_source (url : string) : string :=
  String "f" (String dquote (url +:+ str1 dquote)).

(** The text of a literal up to its closing quote, when that quote is the
    last character. *)
Fixpoint literal_body (s : string) : option string :=
  match s with
  | EmptyString => None
  | String c EmptyString => if Ascii.eqb c dquote then Some "" else None
  | String c t => String c <$> literal_body t
  end.

(** [eval] parses its argument as an expression: the text has to be an
    f-string literal, whose body is the template. The modelled templates
    hold no double quote, so the literal is the whole expression exactly
    when the text between the first and the last quote is such a template. *)
Definition parse_source (src : string) : option (list piece) :=
  match src with
  | String "f" (String q rest) =>
      if Ascii.eqb q dquote then
        match literal_body rest with
        | Some body => parse_template body
        | None => None
        end
      else None
  | _ => None
  end.

(** ** The world and what the module consumes from outside *)

(** A JSON document as [json.loads] returns it; [JNull] is Python's [None].
    Numbers with a fraction are not modelled. *)
#[warnings="-register-all"]
Inductive json : Type :=
| JNull
| JBool (b : bool)
| JNum (n : Z)
| JStr (s : string)
| JArr (elems : list json)
| JObj (members : list (string * json)).

Inductive request : Type :=
| Post (url : string) (data : list (string * string)) (cookies : list (string * json))
| Get (url : string).

(** What comes back for a request: nothing (the connection fails), or a
    status and a body delivered in chunks. *)
Inductive reply : Type :=
| NoReply
| Reply (status : Z) (chunks : list (list byte)).

Record world : Type := World {
  files : gmap string (list byte);   (* regular files, by resolved path *)
  stdout : list string;              (* what was printed, oldest first *)
  sent : list request;               (* requests issued, oldest first *)
  clock : nat                        (* readings of the clock so far *)
}.

Class Platform : Type := {
  (* the objects [from .targetleadconv import ...] binds *)
  targetleadconv : string -> value;
  (* the names of the module and, behind them, the builtins *)
  module_scope : string -> option value;
  (* [json.loads], [None] when it raises *)
  json_loads : list byte -> option json;
  (* reading a file in text mode, [None] when the bytes do not decode *)
  decode_text : list byte -> option string;
  (* [bytes.decode('utf-8')], [None] when it raises *)
  decode_utf8 : list byte -> option string;
  (* what is typed at the [getpass] prompt *)
  getpass : string -> string;
  (* the server, which may answer by what it was sent before *)
  transport : list request -> request -> reply;
  (* [Path(dest).expanduser().resolve()] *)
  resolve : string -> string;
  (* [Path.home().absolute() / '.pycpt_dlauth'] *)
  dlauth_path : string;
  (* the text of [now - start] for two readings of the clock *)
  show_elapsed : nat -> nat -> string;
  (* the datasets and the two parsers, [None] when they raise *)
  Dataset : Type;
  open_cptdataset : list byte -> option Dataset;
  open_dataset : list byte -> option Dataset
}.

(** ** [evaluate_url] *)

Section Evaluate.
Context `{Platform}.

(** The local variables of [evaluate_url] when [eval] runs: its
    parameters and the four imported helpers. *)
Definition fast_locals (url : string) (ensemblemean : value)
    (kwargs : list (string * value)) : list (string * value) :=
  [("url", VStr url);
   ("ensemblemean", ensemblemean);
   ("kwargs", VDict kwargs);
   ("seasonal_target", targetleadconv "seasonal_target");
   ("seasonal_target_length_monthly", targetleadconv "seasonal_target_length_monthly");
   ("seasonal_target_length", targetleadconv "seasonal_target_length");
   ("threeletters", targetleadconv "threeletters")].

(** Name resolution inside [eval]. The call of [locals().update] adds the
    keyword parameters to the frame's dictionary; [eval] then refreshes
    that dictionary from the local variables, which therefore win over a
    keyword parameter of the same name; the module's names and the
    builtins come last. *)
Definition scope (url : string) (ensemblemean : value)
    (kwargs : list (string * value)) (x : string) : option value :=
  match assoc x (fast_locals url ensemblemean kwargs) with
  | Some v => Some v
  | None =>
      match assoc x kwargs with
      | Some v => Some v
      | None => module_scope x
      end
  end.

Fixpoint eval_expr (sc : string -> option value) (e : expr) : outcome value :=
  match e with
  | EName x =>
      match sc x with
      | Some v => Ok v
      | None => Raise (NameError x)
      end
  | ELit v => Ok v
  | ESub e k =>
      obind (eval_expr sc e) (fun o =>
      obind (eval_expr sc k) (fun i => subscript o i))
  end.

(** The fields are evaluated from left to right and joined with the
    literal text. *)
Fixpoint join_pieces (sc : string -> option value) (ps : list piece)
    : outcome string :=
  match ps with
  | [] => Ok ""
  | Lit c :: rest => obind (join_pieces sc rest) (fun s => Ok (String c s))
  | Field e :: rest =>
      obind (eval_expr sc e) (fun v =>
      obind (join_pieces sc rest) (fun s => Ok (py_str v +:+ s)))
  end.

Definition py_eval (sc : string -> option value) (src : string) : outcome string :=
  match parse_source src with
  | Some ps => join_pieces sc ps
  | None => Unmodelled
  end.

Definition evaluate_url (url : string) (ensemblemean : value)
    (kwargs : list (string * value)) : outcome string :=
  py_eval (scope url ensemblemean kwargs) (fstring_source url).

End Evaluate.

(** ** Computations on the world *)

Definition io (A : Type) : Type := world -> outcome A * world.

Definition ret {A} (a : A) : io A := fun w => (Ok a, w).

Definition raise {A} (e : exn) : io A := fun w => (Raise e, w).

Definition lift {A} (o : outcome A) : io A := fun w => (o, w).

Definition bind {A B} (c : io A) (k : A -> io B) : io B :=
  fun w =>
    match c w with
    | (Ok a, w') => k a w'
    | (Raise e, w') => (Raise e, w')
    | (Unmodelled, w') => (Unmodelled, w')
    end.

(** [try: c except: handler], for a handler that catches every exception. *)
Definition try_except {A} (c handler : io A) : io A :=
  fun w =>
    match c w with
    | (Raise _, w') => handler w'
    | r => r
    end.

Notation "x <- c ;; k" := (bind c (fun x => k))
  (at level 100, c at next level, right associativity).
Notation "c ;; k" := (bind c (fun _ => k))
  (at level 100, right associativity).

Definition when (b : bool) (c : io unit) : io unit :=
  if b then c else ret tt.

(** *** The effects *)

Definition set_files (fs : gmap string (list byte)) (w : world) : world :=
  World fs (stdout w) (sent w) (clock w).

(** [print(text, end=ending)] *)
Definition print (text ending : string) : io unit :=
  fun w => (Ok tt, World (files w) (stdout w ++ [text +:+ ending]) (sent w) (clock w)).

Definition newline : string := str1 char_LF.
Definition carriage_return : string := str1 char_CR.

(** [Path.is_file] *)
Definition is_file (path : string) : io bool :=
  fun w => (Ok (bool_decide (is_Some (files w !! path))), w).

(** [open(path, 'rb').read()] *)
Definition read_file (path : string) : io (list byte) :=
  fun w =>
    match files w !! path with
    | Some bs => (Ok bs, w)
    | None => (Raise OSError, w)
    end.

(** [open(path, 'wb')], which leaves an empty file. *)
Definition open_wb (path : string) : io unit :=
  fun w => (Ok tt, set_files (<[path := []]> (files w)) w).

(** [f.write(chunk)] on a file opened at [path]. *)
Definition write (path : string) (chunk : list byte) : io unit :=
  fun w =>
    (Ok tt, set_files (<[path := default [] (files w !! path) ++ chunk]> (files w)) w).

(** [dt.datetime.now()] *)
Definition now : io nat :=
  fun w => (Ok (clock w), World (files w) (stdout w) (sent w) (S (clock w))).

(** [str.strip()]: the white space below 256 is the ASCII white space, the
    next-line control and the no-break space. *)
Definition is_space (c : ascii) : bool :=
  let n := code c in
  ((9 <=? n) && (n <=? 13)) || ((28 <=? n) && (n <=? 32))
  || (n =? 133) || (n =? 160).

Fixpoint lstrip (s : string) : string :=
  match s with
  | EmptyString => ""
  | String c t => if is_space c then lstrip t else s
  end.

Definition py_strip (s : string) : string :=
  String.rev (lstrip (String.rev (lstrip s))).

(** [auth_dict['key']] on what [json.loads] returned: only an object can
    have the member. *)
Definition json_getitem (j : json) (k : string) : outcome json :=
  match j with
  | JObj members =>
      match assoc k members with
      | Some v => Ok v
      | None => Raise (KeyError (VStr k))
      end
  | _ => Raise TypeError
  end.

Definition is_none (j : json) : bool :=
  match j with
  | JNull => true
  | _ => false
  end.

(** [sys.getsizeof(chunk)] for a [bytes] object on a 64-bit CPython: the
    object header and the closing zero take 33 bytes, each byte one more. *)
Definition getsizeof (chunk : list byte) : Z := 33 + Z.of_nat (List.length chunk).

(** [response.raise_for_status()] *)
Definition raise_for_status (status : Z) : io unit :=
  if (400 <=? status) && (status <? 600) then raise (HTTPError status) else ret tt.

(** *** The messages *)

Definition msg_need_setup : string :=
  "You need to set up an IRIDLAUTH! Please set up an IRI account here (https://iridl.ldeo.columbia.edu/auth/signup), then use cptdl.setup_dlauth("
  +:+ str1 dquote +:+ "your_iri_login_email" +:+ str1 dquote
  +:+ ") to setup the cookie. This only needs to happen once!  ".

Definition msg_looks_html : string :=
  "Your existing ~/.pycpt_dlauth file looked like an 'incorrect username/password' message!".

Definition msg_unreadable : string :=
  "Unable to read text from ~/.pycpt_dlauth - it might be binary spaghetti; broken download? delete it and set up again!".

Definition msg_no_cookie : string :=
  "You need to use cpttools.setup_dlauth('your_email') to get a cookie before you can download this data! or, you can try setting use_dlauth=False".

Definition msg_missing_filetype : string :=
  "Required keyword argument missing: 'filetype'".

Definition login_url : string :=
  "https://iridl.ldeo.columbia.edu/auth/login/local/submit/login".

Definition genkey_url : string := "https://iridl.ldeo.columbia.edu/auth/genkey".

Section Module.
Context `{Platform}.

(** A request goes out and is answered; a connection that fails raises. *)
Definition send (rq : request) : io (Z * list (list byte)) :=
  fun w =>
    let w' := World (files w) (stdout w) (sent w ++ [rq]) (clock w) in
    match transport (sent w) rq with
    | NoReply => (Raise ConnectionError, w')
    | Reply status chunks => (Ok (status, chunks), w')
    end.

(** ** [read_dlauth] *)

Definition read_dlauth : io json :=
  present <- is_file dlauth_path ;;
  if negb present then
    print msg_need_setup newline ;;
    ret JNull
  else
    try_except
      (raw <- read_file dlauth_path ;;
       auth_dict <- lift (match json_loads raw with
                          | Some j => Ok j
                          | None => Raise ValueError
                          end) ;;
       lift (json_getitem auth_dict "key"))
      (try_except
         (raw <- read_file dlauth_path ;;
          file <- lift (match decode_text raw with
                        | Some text => Ok text
                        | None => Raise UnicodeDecodeError
                        end) ;;
          if str_in "html" file then
            print msg_looks_html newline ;;
            ret JNull
          else
            (* the function ends without a [return] *)
            ret JNull)
         (print msg_unreadable newline ;;
          ret JNull)).

(** ** [setup_dlauth] *)

Definition setup_dlauth (email : string) : io json :=
  present <- is_file dlauth_path ;;
  if negb present then
    let pswd := py_strip (getpass "DLAUTH PASSWORD: ") in
    response <- send (Post login_url
                        [("email", email); ("password", pswd);
                         ("redirect", "https://iridl.ldeo.columbia.edu/auth")]
                        []) ;;
    raise_for_status (fst response) ;;
    response <- send (Get genkey_url) ;;
    raise_for_status (fst response) ;;
    let content := List.concat (snd response) in
    text <- lift (match decode_utf8 content with
                  | Some text => Ok text
                  | None => Raise UnicodeDecodeError
                  end) ;;
    if str_in "html" text then
      print "Incorrect Username or Password" newline ;;
      ret JNull
    else
      open_wb dlauth_path ;;
      write dlauth_path content ;;
      (* the function ends without a [return] *)
      ret JNull
  else
    print "You already have an IRIDLAUTH (~/.pycpt_dlauth)!" newline ;;
    read_dlauth.

(** ** [simple_download] *)

(** The line of the progress display: the bar between brackets, then
    ['] ({} KB) {}'.format(total_size // 1000, now - start)]. *)
Definition progress_line (bar : string) (total_size : Z) (start t : nat) : string :=
  "DOWNLOADING: [" +:+ bar +:+ "] (" +:+ pretty (total_size / 1000)
  +:+ " KB) " +:+ show_elapsed start t.

Definition announce (url : string) (verbose : bool) : io unit :=
  when verbose (print ("URL: " +:+ url) newline ;; print "" newline).

(** The cookies of the request: the token when [str(use_dlauth)] is
    ['True'], none otherwise. *)
Definition auth_cookies (use_dlauth : value) : io (list (string * json)) :=
  if String.eqb (py_str use_dlauth) "True" then
    dlauthid <- read_dlauth ;;
    (if is_none dlauthid then raise (AssertionError msg_no_cookie) else ret tt) ;;
    ret [("__dlauth_id", dlauthid)]
  else ret [].

(** The loop over [r.iter_content(16*1024)], from the counters [j] and
    [total_size] it starts with to those it ends with. *)
Fixpoint stream (path : string) (verbose : bool) (start : nat)
    (chunks : list (list byte)) (j total_size : Z) : io (Z * Z) :=
  match chunks with
  | [] => ret (j, total_size)
  | chunk :: rest =>
      let j := j + 1 in
      let total_size := total_size + getsizeof chunk in
      when verbose
        (t <- now ;;
         print (carriage_return
                +:+ progress_line (repeat_char "*" (Z.to_nat j)
                                   +:+ repeat_char " " (Z.to_nat (25 - j)))
                                  total_size start t)
               carriage_return) ;;
      let j := if 25 <=? j then 0 else j in
      write path chunk ;;
      stream path verbose start rest j total_size
  end.

(** The request and what follows it: the block under
    [with requests.post(...) as r], the final assertion and the result. *)
Definition transfer (url dest : string) (verbose : bool)
    (cookies : list (string * json)) : io string :=
  r <- send (Post url [] cookies) ;;
  raise_for_status (fst r) ;;
  let path := resolve dest in
  (* [path.parent.mkdir(parents=True, exist_ok=True)]: directories are
     not part of the world *)
  start <- now ;;
  when verbose
    (t <- now ;;
     print (progress_line (repeat_char " " 25) 0 start t) carriage_return) ;;
  open_wb path ;;
  counters <- stream path verbose start (snd r) 0 0 ;;
  when verbose
    (t <- now ;;
     print (progress_line (repeat_char "*" 25) (snd counters) start t) newline) ;;
  written <- is_file path ;;
  (if written then ret tt else raise (AssertionError "failed to write file")) ;;
  ret path.

Definition simple_download (url dest : string) (verbose : bool)
    (use_dlauth : value) : io string :=
  announce url verbose ;;
  cookies <- auth_cookies use_dlauth ;;
  transfer url dest verbose cookies.

End Module.

(** ** [download] *)

Section Download.
Context `{Platform}.

(** [has_key k d]: ['k' in d.keys()] *)
Definition has_key {A} (k : string) (d : list (string * A)) : bool :=
  match assoc k d with
  | Some _ => true
  | None => false
  end.

(** [format in ['cptv10.tsv', 'data.nc']]: a value of the model other than
    an opaque object equals a text only when it is that text. *)
Definition is_known_format (format : value) : outcome bool :=
  match format with
  | VStr s => Ok (String.eqb s "cptv10.tsv" || String.eqb s "data.nc")
  | VObj _ _ => Unmodelled
  | _ => Ok false
  end.

(** The call [evaluate_url(baseurl, **kwargs)]: a keyword [url] collides
    with the positional argument, a keyword [ensemblemean] is the
    parameter of that name, the others are the callee's [kwargs]. *)
Definition call_evaluate_url (baseurl : string)
    (kwargs : list (string * value)) : outcome string :=
  if has_key "url" kwargs then Raise TypeError
  else
    evaluate_url baseurl
      (default (VBool true) (assoc "ensemblemean" kwargs))
      (remove_key "ensemblemean" kwargs).

Definition msg_invalid_format (format : value) : string :=
  "invalid download format: " +:+ py_str format.

Definition msg_missing_arguments (baseurl : string)
    (kwargs : list (string * value)) : string :=
  "You must pass all the required arguments for this URL as keyword arguments in .download(...). "
  +:+ newline +:+ " URL: " +:+ baseurl
  +:+ newline +:+ " ARGS: " +:+ py_repr (VDict kwargs).

Definition msg_broken (url : string) : string :=
  "Please check what's downloaded from here, it may be a broken: " +:+ url.

(** The parser the format selects, on the file at [path]. *)
Definition open_downloaded (format : value) (path : string) : io Dataset :=
  raw <- read_file path ;;
  let parsed :=
    match format with
    | VStr "cptv10.tsv" => open_cptdataset raw
    | _ => open_dataset raw
    end in
  match parsed with
  | Some ds => ret ds
  | None => raise ValueError
  end.

Definition download (baseurl dest : string) (verbose : bool)
    (use_dlauth : value) (kwargs : list (string * value)) : io Dataset :=
  format <- (match assoc "filetype" kwargs with
             | Some v => ret v
             | None => raise (PyCPT_ERROR msg_missing_filetype)
             end) ;;
  known <- lift (is_known_format format) ;;
  (if known then ret tt else raise (AssertionError (msg_invalid_format format))) ;;
  url <- try_except (lift (call_evaluate_url baseurl kwargs))
           (raise (PyCPT_ERROR (msg_missing_arguments baseurl kwargs))) ;;
  path <- simple_download url dest verbose use_dlauth ;;
  try_except (open_downloaded format path)
    (raise (PyCPT_ERROR (msg_broken url))).

End Download.

(** ** [s2s_login] and [c3s_login] *)

(** The phrase whose presence in the answer tells that the login went
    through; the two spaces are in the source. *)
Definition access_phrase : string := "This dataset has  bytes".

Definition s2s_redirect : string :=
  "/SOURCES/.ECMWF/.S2S/.NCEP/.forecast/.perturbed/.sfc_temperature/.skt/datafiles.html".

Definition c3s_redirect : string :=
  "/SOURCES/.EU/.Copernicus/.CDS/.C3S/.DWD/.GCFS2p1/.hindcast/.prcp/datafiles.html".

Definition msg_incorrect_user : string := "Incorrect user or password".

Definition msg_s2s_agreement : string :=
  "You have recorded your agreement to: the S2S terms and conditions / privacy policy"
  +:+ newline +:+ "T&C: https://iridl.ldeo.columbia.edu/auth/legal/terms-of-service"
  +:+ newline +:+ "Privacy: https://iridl.ldeo.columbia.edu/auth/legal/privacy-policy".

Definition msg_c3s_agreement : string :=
  "You have recorded your agreement to: the C3S terms and conditions / privacy policy"
  +:+ newline +:+ "T&C: https://iridl.ldeo.columbia.edu/auth/legal/terms-of-service"
  +:+ newline +:+ "Privacy: https://iridl.ldeo.columbia.edu/auth/legal/privacy-policy".

Section Logins.
Context `{Platform}.

(** [content.decode('utf-8')] *)
Definition decode (content : list byte) : io string :=
  lift (match decode_utf8 content with
        | Some text => Ok text
        | None => Raise UnicodeDecodeError
        end).

Definition s2s_login (email : string) : io unit :=
  let pswd := py_strip (getpass "DLAUTH PASSWORD: ") in
  let redirect := s2s_redirect in
  r <- send (Post login_url
               [("email", email); ("password", pswd); ("redirect", redirect)]
               []) ;;
  raise_for_status (fst r) ;;
  let content := List.concat (snd r) in
  text <- decode content ;;
  if negb (str_in access_phrase text) then
    print msg_incorrect_user newline ;;
    body <- decode content ;;
    print body newline
  else
    print msg_s2s_agreement newline.

Definition c3s_login (email : string) : io unit :=
  let pswd := py_strip (getpass "DLAUTH PASSWORD: ") in
  let redirect := c3s_redirect in
  r <- send (Post login_url
               [("email", email); ("password", pswd); ("redirect", redirect)]
               []) ;;
  raise_for_status (fst r) ;;
  let content := List.concat (snd r) in
  text <- decode content ;;
  if negb (str_in access_phrase text) then
    print msg_incorrect_user newline
  else
    print msg_c3s_agreement newline.

End Logins.

(** ** A platform to run the module on

    A small server and small codecs, to evaluate the definitions on
    concrete inputs. *)

Definition ascii_text (raw : list byte) : option string :=
  if forallb (fun b => (Byte.to_N b <? 128)%N) raw
  then Some (string_of_list_byte raw) else None.

Definition bytes_of (s : string) : list byte := list_byte_of_string s.

Definition demo_key_text : string :=
  "{" +:+ str1 dquote +:+ "key" +:+ str1 dquote +:+ ": "
  +:+ str1 dquote +:+ "tok" +:+ str1 dquote +:+ "}".

Definition demo_key_file : list byte := bytes_of demo_key_text.

Definition demo_json_loads (raw : list byte) : option json :=
  let text := string_of_list_byte raw in
  if String.eqb text demo_key_text then Some (JObj [("key", JStr "tok")])
  else if String.eqb text "{}" then Some (JObj [])
  else None.

Definition demo_transport (history : list request) (rq : request) : reply :=
  match rq with
  | Get _ => Reply 200 [demo_key_file]
  | Post url _ _ =>
      if String.eqb url "http://x/missing" then Reply 404 []
      else if String.eqb url login_url then Reply 200 []
      else if String.eqb url "http://x/990" then Reply 200 [repeat x00 990]
      else Reply 200 [bytes_of "abc"; bytes_of "de"; []; bytes_of "f"]
  end.

Definition demo : Platform := {|
  targetleadconv := fun name =>
    VObj ("<function " +:+ name +:+ ">") ("<function " +:+ name +:+ ">");
  module_scope := fun _ => None;
  json_loads := demo_json_loads;
  decode_text := ascii_text;
  decode_utf8 := ascii_text;
  getpass := fun _ => " secret ";
  transport := demo_transport;
  resolve := fun dest => "/work/" +:+ dest;
  dlauth_path := "/home/user/.pycpt_dlauth";
  show_elapsed := fun _ _ => "0:00:00";
  Dataset := list byte;
  open_cptdataset := fun raw => Some raw;
  open_dataset := fun _ => None
|}.

(** The platform above with another server: one that answers every request
    with the same status and body, and one that accepts the login and
    refuses the key. *)
Definition demo_served (t : list request -> request -> reply) : Platform := {|
  targetleadconv := @targetleadconv demo;
  module_scope := @module_scope demo;
  json_loads := @json_loads demo;
  decode_text := @decode_text demo;
  decode_utf8 := @decode_utf8 demo;
  getpass := @getpass demo;
  transport := t;
  resolve := @resolve demo;
  dlauth_path := @dlauth_path demo;
  show_elapsed := @show_elapsed demo;
  Dataset := @Dataset demo;
  open_cptdataset := @open_cptdataset demo;
  open_dataset := @open_dataset demo
|}.

Definition demo_answering (status : Z) (body : string) : Platform :=
  demo_served (fun _ _ => Reply status [bytes_of body]).

Definition demo_key_refused : Platform :=
  demo_served (fun _ rq =>
                 match rq with
                 | Get _ => Reply 500 []
                 | Post _ _ _ => Reply 200 []
                 end).

Definition empty_world : world := World ∅ [] [] 0.

Definition dlauth_world (content : list byte) : world :=
  World {[ "/home/user/.pycpt_dlauth" := content ]} [] [] 0.

(** ** What the specification says of a template, in its own terms *)








(** ** What the specification says of the credential file, in its own terms *)

(** The states of the credential file. *)
Inductive credential : Type :=
| NoFile                 (* there is no file *)
| Key (tok : json)       (* a record with a member [key] *)
| HtmlPage               (* some other text, which holds [html] *)
| OtherText              (* some other text *)
| Undecodable.           (* bytes that are no text *)

Section Credential.
Context `{Platform}.

Definition as_text (raw : list byte) : credential :=
  match decode_text raw with
  | Some text => if str_in "html" text then HtmlPage else OtherText
  | None => Undecodable
  end.

Definition credential_of (fs : gmap string (list byte)) : credential :=
  match fs !! dlauth_path with
  | None => NoFile
  | Some raw =>
      match json_loads raw with
      | Some (JObj members) =>
          match assoc "key" members with
          | Some tok => Key tok
          | None => as_text raw
          end
      | _ => as_text raw
      end
  end.

End Credential.

Definition token_of (c : credential) : json :=
  match c with
  | Key tok => tok
  | _ => JNull
  end.

(** What [read_dlauth] prints in each state. *)
Definition diagnostic (c : credential) : list string :=
  match c with
  | NoFile => [msg_need_setup +:+ newline]
  | HtmlPage => [msg_looks_html +:+ newline]
  | Undecodable => [msg_unreadable +:+ newline]
  | Key _ | OtherText => []
  end.

(** The bytes of a body, and what the counter of [stream] adds for it. *)
Fixpoint counted (chunks : list (list byte)) : Z :=
  match chunks with
  | [] => 0
  | chunk :: rest => getsizeof chunk + counted rest
  end.

Definition body_length (chunks : list (list byte)) : Z :=
  Z.of_nat (List.length (List.concat chunks)).

(** * Properties *)

(** ** Reading the source text back *)

Lemma literal_body_closed (s : string) :
  literal_body (s +:+ str1 dquote) = Some s.
Proof.
  induction s as [|c t IH]; [reflexivity|].
  change (String c t +:+ str1 dquote) with (String c (t +:+ str1 dquote)).
  destruct t as [|d t']; [reflexivity|].
  change (literal_body (String c (String d t' +:+ str1 dquote)))
    with (String c <$> literal_body (String d t' +:+ str1 dquote)).
  now rewrite IH.
Qed.

Lemma parse_source_fstring (url : string) :
  parse_source (fstring_source url) = parse_template url.
Proof.
  unfold parse_source, fstring_source.
  change (Ascii.eqb dquote dquote) with true. cbv iota.
  now rewrite literal_body_closed.
Qed.

Section EvaluateFacts.
Context `{Platform}.

Lemma evaluate_url_unfold url ensemblemean kwargs :
  evaluate_url url ensemblemean kwargs =
  match parse_template url with
  | Some ps => join_pieces (scope url ensemblemean kwargs) ps
  | None => Unmodelled
  end.
Proof.
  unfold evaluate_url, py_eval. now rewrite parse_source_fstring.
Qed.



End EvaluateFacts.

(** ** The template scanner against the specification's substitution *)



Lemma pieces_text_cons (c : ascii) (t : string) :
  pieces None (String c t) =
  if Ascii.eqb c "{" then
    match t with
    | String d t' =>
        if Ascii.eqb d "{" then cons (Lit "{"%char) <$> pieces None t'
        else pieces (Some "") t
    | EmptyString => pieces (Some "") t
    end
  else if Ascii.eqb c "}" then
    match t with
    | String d t' =>
        if Ascii.eqb d "}" then cons (Lit "}"%char) <$> pieces None t' else None
    | EmptyString => None
    end
  else if is_text_char c then cons (Lit c) <$> pieces None t
  else None.
Proof.
  destruct c as [[] [] [] [] [] [] [] []]; try reflexivity;
    destruct t as [|[[] [] [] [] [] [] [] []] t']; reflexivity.
Qed.






(** ** Unbound names *)





Section EvaluateClaims.
Context `{Platform}.



End EvaluateClaims.





(** ** Running computations *)

Ltac run_io :=
  unfold bind, ret, raise, lift, try_except, when, print, is_file, read_file,
    open_wb, write, now, set_files; cbn.

Lemma bind_ok {A B} (c : io A) (k : A -> io B) w a w' :
  c w = (Ok a, w') -> bind c k w = k a w'.
Proof. intros Hc. unfold bind. now rewrite Hc. Qed.

Lemma bind_raise {A B} (c : io A) (k : A -> io B) w e w' :
  c w = (Raise e, w') -> bind c k w = (Raise e, w').
Proof. intros Hc. unfold bind. now rewrite Hc. Qed.

Section CredentialFacts.
Context `{Platform}.

Lemma read_text_outcome fs out snt clk raw :
  fs !! dlauth_path = Some raw ->
  try_except
    (raw <- read_file dlauth_path ;;
     file <- lift (match decode_text raw with
                   | Some text => Ok text
                   | None => Raise UnicodeDecodeError
                   end) ;;
     if str_in "html" file then print msg_looks_html newline ;; ret JNull
     else ret JNull)
    (print msg_unreadable newline ;; ret JNull) (World fs out snt clk)
  = (Ok (token_of (as_text raw)),
     World fs (out ++ diagnostic (as_text raw)) snt clk).
Proof.
  intros Hf. unfold as_text. run_io. rewrite Hf.
  destruct (decode_text raw) as [text|]; cbn; [|reflexivity].
  destruct (str_in "html" text); cbn; [reflexivity|now rewrite app_nil_r].
Qed.

(** [read_dlauth] always returns: the token in the state [Key], [None] in
    the others; it prints the diagnostic of the state and leaves the rest
    of the world as it is. *)
Lemma read_dlauth_outcome (w : world) :
  read_dlauth w =
  (Ok (token_of (credential_of (files w))),
   World (files w) (stdout w ++ diagnostic (credential_of (files w)))
     (sent w) (clock w)).
Proof.
  destruct w as [fs out snt clk]. unfold read_dlauth, credential_of.
  unfold bind at 1, is_file. cbn.
  destruct (fs !! dlauth_path) as [raw|] eqn:Hf.
  - rewrite bool_decide_true by eauto. cbn.
    unfold try_except at 1.
    unfold bind at 1, read_file. cbn. rewrite Hf.
    unfold bind at 1, lift.
    pose proof (read_text_outcome fs out snt clk raw Hf) as Htext.
    destruct (json_loads raw) as [j|]; [|exact Htext].
    destruct j as [| | | | |members]; cbn; try exact Htext.
    destruct (assoc "key" members) as [tok|]; cbn; [|exact Htext].
    now rewrite app_nil_r.
  - rewrite bool_decide_false by (intros [? ?]; discriminate). reflexivity.
Qed.

Lemma stream_outcome path verbose start chunks :
  forall j total w content,
    files w !! path = Some content ->
    exists j' w',
      stream path verbose start chunks j total w = (Ok (j', total + counted chunks), w')
      /\ files w' = <[path := content ++ List.concat chunks]> (files w)
      /\ sent w' = sent w.
Proof.
  induction chunks as [|chunk rest IH]; intros j total w content Hf.
  - exists j, w. cbn. rewrite Z.add_0_r, app_nil_r.
    repeat split. symmetry. now apply insert_id.
  - destruct w as [fs out snt clk]. cbn in Hf.
    cbn [stream counted List.concat]. cbn [files sent].
    rewrite Z.add_assoc, app_assoc.
    set (j1 := if 25 <=? j + 1 then 0 else j + 1).
    set (total1 := total + getsizeof chunk).
    assert (Hstep : exists out' clk',
      forall k : unit -> io (Z * Z),
        bind (when verbose
           (t <- now ;;
            print (carriage_return
                   +:+ progress_line (repeat_char "*" (Z.to_nat (j + 1))
                                      +:+ repeat_char " " (Z.to_nat (25 - (j + 1))))
                                     total1 start t)
                  carriage_return)) k (World fs out snt clk)
        = k tt (World fs out' snt clk')).
    { destruct verbose; do 2 eexists; intros k; reflexivity. }
    destruct Hstep as (out' & clk' & ->).
    unfold bind at 1, write. cbn [files stdout sent clock set_files].
    rewrite Hf. cbn [default].
    destruct (IH j1 total1
                (World (<[path := content ++ chunk]> fs) out' snt clk')
                (content ++ chunk)) as (j' & w' & Hrun & Hfiles & Hsent).
    { cbn. apply lookup_insert_eq. }
    exists j', w'. split; [exact Hrun|]. split; [|exact Hsent].
    rewrite Hfiles. cbn [files]. apply insert_insert_eq.
Qed.

End CredentialFacts.

(** A step that only shows progress changes what was printed and the clock. *)
Ltac skip_display :=
  match goal with
  | |- context [@bind unit ?B (when ?v ?c) _ (World ?fs ?out ?snt ?clk)] =>
      let Hs := fresh "Hs" in
      assert (Hs : exists out' clk', forall k' : unit -> io B,
                 bind (when v c) k' (World fs out snt clk)
                 = k' tt (World fs out' snt clk'))
        by (destruct v; do 2 eexists; intros; reflexivity);
      destruct Hs as (? & ? & ->)
  end.

Section DownloadFacts.
Context `{Platform}.

Lemma auth_cookies_outcome use_dlauth w :
  auth_cookies use_dlauth w =
  if String.eqb (py_str use_dlauth) "True" then
    let c := credential_of (files w) in
    let w1 := World (files w) (stdout w ++ diagnostic c) (sent w) (clock w) in
    if is_none (token_of c) then (Raise (AssertionError msg_no_cookie), w1)
    else (Ok [("__dlauth_id", token_of c)], w1)
  else (Ok [], w).
Proof.
  unfold auth_cookies. destruct (String.eqb (py_str use_dlauth) "True"); [|reflexivity].
  rewrite (bind_ok _ _ _ _ _ (read_dlauth_outcome w)). cbn zeta.
  destruct (is_none (token_of (credential_of (files w)))); reflexivity.
Qed.

Lemma status_ok status :
  200 <= status < 300 -> raise_for_status status = ret tt.
Proof.
  intros Hs. unfold raise_for_status.
  replace (400 <=? status) with false by (symmetry; apply Z.leb_gt; lia).
  reflexivity.
Qed.

Lemma transfer_sends url dest verbose cookies w :
  exists r w',
    transfer url dest verbose cookies w = (r, w')
    /\ sent w' = sent w ++ [Post url [] cookies]
    /\ (forall status chunks,
          transport (sent w) (Post url [] cookies) = Reply status chunks ->
          200 <= status < 300 ->
          r = Ok (resolve dest)
          /\ files w' = <[resolve dest := List.concat chunks]> (files w)).
Proof.
  destruct w as [fs out snt clk]. unfold transfer.
  unfold bind at 1, send. cbn [files stdout sent clock].
  destruct (transport snt (Post url [] cookies)) as [|status chunks] eqn:Ht.
  { do 2 eexists. split; [reflexivity|]. split; [reflexivity|]. discriminate. }
  cbn [fst snd]. unfold raise_for_status.
  destruct ((400 <=? status) && (status <? 600)) eqn:Hbad.
  { do 2 eexists. split; [reflexivity|]. split; [reflexivity|].
    intros ? ? [= <- <-] Hs.
    apply andb_prop in Hbad as [Hlo _]. apply Z.leb_le in Hlo. lia. }
  unfold bind at 1, ret. unfold bind at 1, now. cbn [files stdout sent clock].
  skip_display.
  unfold bind at 1, open_wb, set_files. cbn [files stdout sent clock].
  match goal with
  | |- context [bind (stream ?p ?v ?s ?cs ?j ?t) _ ?w] =>
      destruct (stream_outcome p v s cs j t w []) as (j' & w' & Hrun & Hfiles & Hsent);
        [apply lookup_insert_eq|]
  end.
  rewrite (bind_ok _ _ _ _ _ Hrun).
  destruct w' as [fs' out' snt' clk']. cbn [files stdout sent clock fst snd] in *.
  skip_display.
  unfold bind at 1, is_file. cbn [files stdout sent clock].
  rewrite bool_decide_true
    by (rewrite Hfiles, lookup_insert_eq; eauto).
  unfold bind at 1, ret.
  do 2 eexists. split; [reflexivity|]. split; [exact Hsent|].
  intros ? ? [= <- <-] _. split; [reflexivity|].
  cbn [files]. rewrite Hfiles. cbn [app]. apply insert_insert_eq.
Qed.

(** C5. When the request is answered with a status from 200 to 299 and a
    body delivered in chunks, [simple_download] returns the resolved
    destination, whose file then exists and holds the chunks joined in
    their order. *)
Theorem simple_download_writes_body url dest verbose use_dlauth w cookies status chunks :
  fst (auth_cookies use_dlauth w) = Ok cookies ->
  transport (sent w) (Post url [] cookies) = Reply status chunks ->
  200 <= status < 300 ->
  exists w',
    simple_download url dest verbose use_dlauth w = (Ok (resolve dest), w')
    /\ files w' !! resolve dest = Some (List.concat chunks)
    /\ is_file (resolve dest) w' = (Ok true, w').
Proof.
  intros Ha Ht Hs. destruct w as [fs out snt clk]. cbn [sent] in Ht.
  unfold simple_download, announce. skip_display.
  rewrite auth_cookies_outcome in Ha.
  unfold bind at 1. rewrite auth_cookies_outcome. cbn [files stdout sent clock] in *.
  assert (Hrun : forall out1 clk1, exists w',
    transfer url dest verbose cookies (World fs out1 snt clk1)
    = (Ok (resolve dest), w')
    /\ files w' !! resolve dest = Some (List.concat chunks)
    /\ is_file (resolve dest) w' = (Ok true, w')).
  { intros out1 clk1.
    destruct (transfer_sends url dest verbose cookies (World fs out1 snt clk1))
      as (r & w' & Hrun & _ & Hok).
    destruct (Hok status chunks Ht Hs) as [-> Hfiles].
    exists w'. split; [exact Hrun|].
    assert (Hl : files w' !! resolve dest = Some (List.concat chunks))
      by (rewrite Hfiles; apply lookup_insert_eq).
    split; [exact Hl|].
    unfold is_file. rewrite bool_decide_true by (rewrite Hl; eauto). reflexivity. }
  destruct (py_str use_dlauth =? "True")%string.
  - destruct (is_none (token_of (credential_of fs))); [discriminate|].
    injection Ha as <-. apply Hrun.
  - injection Ha as <-. apply Hrun.
Qed.

Lemma is_none_true tok : is_none tok = true <-> tok = JNull.
Proof. destruct tok; cbn; split; congruence. Qed.

(** C6. With [use_dlauth=True], when [read_dlauth] returns [None] the
    call fails on its assertion and no request has been issued; when it
    returns a token, the request that goes out carries it as the cookie
    [__dlauth_id]. *)
Theorem simple_download_needs_token url dest verbose w tok :
  fst (read_dlauth w) = Ok tok ->
  (tok = JNull ->
     exists w',
       simple_download url dest verbose (VBool true) w
       = (Raise (AssertionError msg_no_cookie), w')
       /\ sent w' = sent w /\ files w' = files w)
  /\ (tok <> JNull ->
        exists r w',
          simple_download url dest verbose (VBool true) w = (r, w')
          /\ sent w' = sent w ++ [Post url [] [("__dlauth_id", tok)]]).
Proof.
  rewrite read_dlauth_outcome. cbn [fst]. intros [= Htok].
  destruct w as [fs out snt clk]. cbn [files stdout sent clock] in *.
  unfold simple_download, announce. split; intros Hnone.
  - skip_display. unfold bind at 1. rewrite auth_cookies_outcome.
    cbn [files stdout sent clock py_str py_repr py_bool String.eqb].
    change ("True" =? "True")%string with true. cbn zeta iota.
    rewrite Htok, Hnone. cbn [is_none].
    eexists. split; [reflexivity|]. split; reflexivity.
  - skip_display. unfold bind at 1. rewrite auth_cookies_outcome.
    cbn [files stdout sent clock].
    change (py_str (VBool true) =? "True")%string with true. cbn zeta iota.
    rewrite Htok.
    destruct (is_none tok) eqn:Hn; [now apply is_none_true in Hn|].
    match goal with
    | |- context [transfer url dest verbose ?c ?w0] =>
        destruct (transfer_sends url dest verbose c w0) as (r & w' & Hrun & Hsent & _)
    end.
    exists r, w'. split; [exact Hrun|exact Hsent].
Qed.


End DownloadFacts.

Section OrchestratorFacts.
Context `{Platform}.

(** C3 (as amended). A call of [download] whose [filetype] is a value
    other than ['cptv10.tsv'] and ['data.nc'] fails on the assertion of
    the format, with an [AssertionError] that shows the value, and the
    world is as before: no request was issued and no file written. *)
Theorem download_rejects_unknown_format baseurl dest verbose use_dlauth kwargs format w :
  assoc "filetype" kwargs = Some format ->
  format <> VStr "cptv10.tsv" ->
  format <> VStr "data.nc" ->
  (forall shown repr, format <> VObj shown repr) ->
  download baseurl dest verbose use_dlauth kwargs w
  = (Raise (AssertionError ("invalid download format: " +:+ py_str format)), w).
Proof.
  intros Hf H1 H2 Hobj. unfold download. rewrite Hf.
  unfold bind at 1, ret.
  assert (Hk : is_known_format format = Ok false).
  { destruct format as [| | |s| |]; try reflexivity.
    - cbn. destruct (String.eqb_spec s "cptv10.tsv") as [->|_]; [congruence|].
      destruct (String.eqb_spec s "data.nc") as [->|_]; [congruence|reflexivity].
    - now destruct (Hobj shown repr). }
  unfold bind at 1, lift. rewrite Hk. reflexivity.
Qed.

(** C4. A call of [download] without the keyword [filetype] fails with
    [PyCPT_ERROR], whose message names ['filetype'], and the world is as
    before: no request was issued. *)
Theorem download_requires_filetype baseurl dest verbose use_dlauth kwargs w :
  assoc "filetype" kwargs = None ->
  download baseurl dest verbose use_dlauth kwargs w
  = (Raise (PyCPT_ERROR msg_missing_filetype), w)
  /\ str_in "'filetype'" msg_missing_filetype = true
  /\ sent (snd (download baseurl dest verbose use_dlauth kwargs w)) = sent w.
Proof.
  intros Hf. unfold download. rewrite Hf. repeat split.
Qed.

(** C10. On the first setup (no credential file, both requests answered
    with a status from 200 to 299, a key that holds no [html]),
    [setup_dlauth] writes the answer of the key request to the credential
    file and returns [None]; it returns something else than [None] only
    when the file was already there, and then what [read_dlauth] returns
    after the notice. *)
Theorem setup_dlauth_returns email w :
  let login :=
    Post login_url
      [("email", email);
       ("password", py_strip (getpass "DLAUTH PASSWORD: "));
       ("redirect", "https://iridl.ldeo.columbia.edu/auth")] [] in
  (forall s1 c1 s2 c2 text,
      files w !! dlauth_path = None ->
      transport (sent w) login = Reply s1 c1 ->
      200 <= s1 < 300 ->
      transport (sent w ++ [login]) (Get genkey_url) = Reply s2 c2 ->
      200 <= s2 < 300 ->
      decode_utf8 (List.concat c2) = Some text ->
      str_in "html" text = false ->
      exists w',
        setup_dlauth email w = (Ok JNull, w')
        /\ files w' = <[dlauth_path := List.concat c2]> (files w))
  /\ (forall tok w',
        setup_dlauth email w = (Ok tok, w') ->
        tok <> JNull ->
        is_Some (files w !! dlauth_path)
        /\ read_dlauth
             (snd (print "You already have an IRIDLAUTH (~/.pycpt_dlauth)!" newline w))
           = (Ok tok, w')).
Proof.
  intros login. destruct w as [fs out snt clk]. cbn [files sent].
  unfold setup_dlauth. fold login.
  split.
  - intros s1 c1 s2 c2 text Hnone Ht1 Hs1 Ht2 Hs2 Hdec Hhtml.
    unfold bind at 1, is_file. cbn [files].
    rewrite bool_decide_false by (rewrite Hnone; intros [? ?]; discriminate).
    cbn [negb].
    unfold bind at 1, send. cbn [files stdout sent clock]. rewrite Ht1.
    cbn [fst snd]. rewrite (status_ok s1 Hs1). unfold bind at 1, ret.
    unfold bind at 1, send. cbn [files stdout sent clock]. rewrite Ht2.
    cbn [fst snd]. rewrite (status_ok s2 Hs2). unfold bind at 1, ret.
    rewrite Hdec. unfold bind at 1, lift. rewrite Hhtml.
    unfold bind, open_wb, write, ret, set_files. cbn [files stdout sent clock].
    eexists. split; [reflexivity|]. cbn [files].
    rewrite lookup_insert_eq. cbn [default app]. apply insert_insert_eq.
  - intros tok w' Hrun Htok.
    unfold bind at 1, is_file in Hrun. cbn [files] in Hrun.
    destruct (fs !! dlauth_path) as [raw|] eqn:Hf.
    + rewrite bool_decide_true in Hrun by eauto. cbn [negb] in Hrun.
      split; [eauto|]. exact Hrun.
    + exfalso.
      rewrite bool_decide_false in Hrun by (intros [? ?]; discriminate).
      cbn [negb] in Hrun.
      unfold bind at 1, send in Hrun. cbn [files stdout sent clock] in Hrun.
      destruct (transport snt login) as [|s1 c1]; [discriminate|].
      cbn [fst snd] in Hrun. unfold raise_for_status in Hrun.
      destruct ((400 <=? s1) && (s1 <? 600)); [discriminate|].
      unfold bind at 1, ret in Hrun.
      unfold bind at 1, send in Hrun. cbn [files stdout sent clock] in Hrun.
      destruct (transport (snt ++ [login]) (Get genkey_url)) as [|s2 c2];
        [discriminate|].
      cbn [fst snd] in Hrun.
      destruct ((400 <=? s2) && (s2 <? 600)); [discriminate|].
      unfold bind at 1, ret in Hrun.
      unfold bind at 1, lift in Hrun.
      destruct (decode_utf8 (List.concat c2)) as [text|]; [|discriminate].
      destruct (str_in "html" text).
      * unfold bind, print, ret in Hrun. injection Hrun as <- _. now apply Htok.
      * unfold bind, open_wb, write, ret in Hrun. injection Hrun as <- _.
        now apply Htok.
Qed.

End OrchestratorFacts.

(** ** The claims on concrete inputs *)

Lemma counted_overhead chunks :
  counted chunks = body_length chunks + 33 * Z.of_nat (List.length chunks).
Proof.
  unfold body_length. induction chunks as [|chunk rest IH]; [reflexivity|].
  cbn [counted List.concat List.length]. rewrite IH. unfold getsizeof.
  rewrite length_app. lia.
Qed.

Lemma read_dlauth_other_text `{Platform} w :
  credential_of (files w) = OtherText -> read_dlauth w = (Ok JNull, w).
Proof.
  intros Hc. rewrite read_dlauth_outcome, Hc. destruct w. cbn.
  now rewrite app_nil_r.
Qed.

(** C7, where the code departs from the claim: a credential file that holds
    text which is neither the record nor a page with [html] makes
    [read_dlauth] return [None] and print nothing. *)
Theorem read_dlauth_silent_on_other_text :
  let w := dlauth_world (bytes_of "oops") in
  @credential_of demo (files w) = OtherText
  /\ @read_dlauth demo w = (Ok JNull, w).
Proof.
  assert (Hc : @credential_of demo (files (dlauth_world (bytes_of "oops"))) = OtherText)
    by (vm_compute; reflexivity).
  split; [exact Hc|]. now apply (@read_dlauth_other_text demo).
Qed.

(** C8, where the code departs from the claim: for a body of one chunk of
    990 bytes the counter ends at 1023, the size of the chunk as an object,
    and the summary line reports 1 KB for a file of 990 bytes. *)
Theorem simple_download_counts_object_sizes :
  let chunk := repeat x00 990 in
  let w' := snd (@simple_download demo "http://x/990" "out.bin" true (VBool false) empty_world) in
  fst (@stream demo "/work/out.bin" false 0%nat [chunk] 0 0 empty_world) = Ok (1, 1023)
  /\ body_length [chunk] = 990
  /\ List.length <$> (files w' !! "/work/out.bin") = Some 990%nat
  /\ last (stdout w')
     = Some ("DOWNLOADING: [*************************] (1 KB) 0:00:00" +:+ newline).
Proof. vm_compute. repeat split. Qed.

(** C3, the claim as written fails: the exception is an [AssertionError],
    not the [PyCPT_ERROR] of the module. *)
Lemma download_unknown_format_is_assertion :
  let r := @download demo "http://x/{first_year}.tsv" "out.tsv" false (VBool true)
             [("filetype", VStr "bogus"); ("first_year", VInt 1982)] empty_world in
  fst r = Raise (AssertionError "invalid download format: bogus")
  /\ forall msg, fst r <> Raise (PyCPT_ERROR msg).
Proof. split; [reflexivity|]. intros msg. discriminate. Qed.

Lemma download_rejects_unknown_format_witness :
  @download demo "http://x/{first_year}.tsv" "out.tsv" false (VBool true)
    [("filetype", VStr "bogus"); ("first_year", VInt 1982)] empty_world
  = (Raise (AssertionError "invalid download format: bogus"), empty_world).
Proof.
  apply (@download_rejects_unknown_format demo "http://x/{first_year}.tsv" "out.tsv"
           false (VBool true)
           [("filetype", VStr "bogus"); ("first_year", VInt 1982)] (VStr "bogus")
           empty_world); try discriminate.
  reflexivity.
Defined.

Lemma download_requires_filetype_witness :
  let run := @download demo "http://x/{first_year}.tsv" "out.tsv" false (VBool true)
               [("first_year", VInt 1982)] in
  run empty_world = (Raise (PyCPT_ERROR msg_missing_filetype), empty_world)
  /\ str_in "'filetype'" msg_missing_filetype = true
  /\ sent (snd (run empty_world)) = sent empty_world.
Proof.
  apply (@download_requires_filetype demo). reflexivity.
Defined.

Lemma simple_download_writes_body_witness :
  exists w',
    @simple_download demo "http://x/a" "out.tsv" false (VBool false) empty_world
    = (Ok "/work/out.tsv", w')
    /\ files w' !! "/work/out.tsv" = Some (bytes_of "abcdef")
    /\ is_file "/work/out.tsv" w' = (Ok true, w').
Proof.
  apply (@simple_download_writes_body demo "http://x/a" "out.tsv" false (VBool false)
           empty_world [] 200
           [bytes_of "abc"; bytes_of "de"; []; bytes_of "f"]).
  - reflexivity.
  - reflexivity.
  - lia.
Defined.

Lemma simple_download_needs_token_witness :
  (exists w',
      @simple_download demo "http://x/a" "out.tsv" false (VBool true) empty_world
      = (Raise (AssertionError msg_no_cookie), w')
      /\ sent w' = [] /\ files w' = ∅)
  /\ (exists r w',
        @simple_download demo "http://x/a" "out.tsv" false (VBool true)
          (dlauth_world demo_key_file) = (r, w')
        /\ sent w' = [Post "http://x/a" [] [("__dlauth_id", JStr "tok")]]).
Proof.
  split.
  - apply (proj1 (@simple_download_needs_token demo "http://x/a" "out.tsv" false
                    empty_world JNull eq_refl) eq_refl).
  - apply (proj2 (@simple_download_needs_token demo "http://x/a" "out.tsv" false
                    (dlauth_world demo_key_file) (JStr "tok") eq_refl)).
    discriminate.
Defined.


Lemma setup_dlauth_returns_witness :
  exists w',
    @setup_dlauth demo "user@example.org" empty_world = (Ok JNull, w')
    /\ files w' = {[ "/home/user/.pycpt_dlauth" := demo_key_file ]}.
Proof.
  destruct (proj1 (@setup_dlauth_returns demo "user@example.org" empty_world)
              200 [] 200 [demo_key_file] demo_key_text)
    as (w' & Hrun & Hfiles); try reflexivity; try lia.
  exists w'. split; [exact Hrun|]. rewrite Hfiles. reflexivity.
Defined.


(** * Further properties *)

(** ** [evaluate_url] *)


Lemma text_char_not_brace c :
  is_text_char c = true -> Ascii.eqb c "{" = false /\ Ascii.eqb c "}" = false.
Proof.
  unfold is_text_char. intros Hc.
  apply andb_prop in Hc as [Hc Hclose]. apply andb_prop in Hc as [_ Hopen].
  split; [now destruct (Ascii.eqb c "{")|now destruct (Ascii.eqb c "}")].
Qed.

Lemma pieces_plain_text s :
  forallb is_text_char (list_ascii_of_string s) = true ->
  pieces None s = Some (map Lit (list_ascii_of_string s)).
Proof.
  induction s as [|c t IH]; [reflexivity|].
  cbn [list_ascii_of_string forallb map]. intros Hall.
  apply andb_prop in Hall as [Hc Ht].
  rewrite pieces_text_cons.
  destruct (text_char_not_brace c Hc) as [-> ->]. rewrite Hc.
  now rewrite (IH Ht).
Qed.

Lemma join_pieces_literals sc s :
  join_pieces sc (map Lit (list_ascii_of_string s)) = Ok s.
Proof.
  induction s as [|c t IH]; [reflexivity|].
  cbn [list_ascii_of_string map join_pieces]. now rewrite IH.
Qed.







Section EvaluateMore.
Context `{Platform}.


(** X2. A template without braces, made of printable ASCII characters other
    than the double quote and the backslash, evaluates to itself, whatever
    the parameters. *)
Theorem evaluate_url_plain_text url ensemblemean kwargs :
  forallb is_text_char (list_ascii_of_string url) = true ->
  evaluate_url url ensemblemean kwargs = Ok url.
Proof.
  intros Hall. rewrite evaluate_url_unfold. unfold parse_template.
  rewrite (pieces_plain_text url Hall). apply join_pieces_literals.
Qed.



End EvaluateMore.


Lemma evaluate_url_plain_text_witness :
  @evaluate_url demo "http://x/data.tsv?a=1&b='c'" (VBool false) []
  = Ok "http://x/data.tsv?a=1&b='c'".
Proof.
  apply (@evaluate_url_plain_text demo). reflexivity.
Defined.



(** ** [read_dlauth] and [setup_dlauth] *)

Section CredentialMore.
Context `{Platform}.

Lemma credential_of_key fs raw members tok :
  fs !! dlauth_path = Some raw ->
  json_loads raw = Some (JObj members) ->
  assoc "key" members = Some tok ->
  credential_of fs = Key tok.
Proof. intros Hf Hj Hk. unfold credential_of. now rewrite Hf, Hj, Hk. Qed.

Lemma credential_of_text fs raw :
  fs !! dlauth_path = Some raw ->
  (forall j tok, json_loads raw = Some j -> json_getitem j "key" <> Ok tok) ->
  credential_of fs = as_text raw.
Proof.
  intros Hf Hno. unfold credential_of. rewrite Hf.
  destruct (json_loads raw) as [j|] eqn:Hj; [|reflexivity].
  destruct j as [| | | | |members]; try reflexivity.
  destruct (assoc "key" members) as [tok|] eqn:Hk; [|reflexivity].
  destruct (Hno (JObj members) tok eq_refl). cbn. now rewrite Hk.
Qed.

(** X5. [read_dlauth] never raises: in every state of the world it
    returns, having printed at most one line and changed nothing else (no
    file, no request). *)
Theorem read_dlauth_never_raises w :
  exists tok msgs,
    read_dlauth w
    = (Ok tok, World (files w) (stdout w ++ msgs) (sent w) (clock w))
    /\ (List.length msgs <= 1)%nat.
Proof.
  exists (token_of (credential_of (files w))), (diagnostic (credential_of (files w))).
  split; [apply read_dlauth_outcome|].
  destruct (credential_of (files w)); cbn; lia.
Qed.

(** X6. When the credential file holds a JSON object with a member [key],
    [read_dlauth] returns the value of that member and prints nothing. *)
Theorem read_dlauth_returns_key w raw members tok :
  files w !! dlauth_path = Some raw ->
  json_loads raw = Some (JObj members) ->
  assoc "key" members = Some tok ->
  read_dlauth w = (Ok tok, w).
Proof.
  intros Hf Hj Hk. rewrite read_dlauth_outcome.
  rewrite (credential_of_key (files w) raw members tok Hf Hj Hk).
  destruct w. cbn. now rewrite app_nil_r.
Qed.

(** X7. What [read_dlauth] prints when it returns [None]: the invitation to
    set up when there is no file; the notice of a wrong password when the
    file holds no record with a key and its text holds [html]; the notice
    of a broken file when the file holds no such record and is no text. *)
Theorem read_dlauth_diagnostics w :
  let say msg := World (files w) (stdout w ++ [msg +:+ newline]) (sent w) (clock w) in
  (files w !! dlauth_path = None ->
     read_dlauth w = (Ok JNull, say msg_need_setup))
  /\ (forall raw,
        files w !! dlauth_path = Some raw ->
        (forall j tok, json_loads raw = Some j -> json_getitem j "key" <> Ok tok) ->
        (forall text, decode_text raw = Some text -> str_in "html" text = true ->
           read_dlauth w = (Ok JNull, say msg_looks_html))
        /\ (decode_text raw = None ->
              read_dlauth w = (Ok JNull, say msg_unreadable))).
Proof.
  intros say. split.
  - intros Hf. rewrite read_dlauth_outcome. unfold credential_of. now rewrite Hf.
  - intros raw Hf Hno. rewrite read_dlauth_outcome.
    rewrite (credential_of_text (files w) raw Hf Hno). unfold as_text. split.
    + intros text Hd Hh. now rewrite Hd, Hh.
    + intros Hd. now rewrite Hd.
Qed.

(** What [setup_dlauth] does when there is no credential file, by the
    answers of the server. *)
Lemma setup_dlauth_fresh email fs out snt clk :
  fs !! dlauth_path = None ->
  let login :=
    Post login_url
      [("email", email);
       ("password", py_strip (getpass "DLAUTH PASSWORD: "));
       ("redirect", "https://iridl.ldeo.columbia.edu/auth")] [] in
  let bad status := (400 <=? status) && (status <? 600) in
  setup_dlauth email (World fs out snt clk) =
  match transport snt login with
  | NoReply => (Raise ConnectionError, World fs out (snt ++ [login]) clk)
  | Reply s1 _ =>
      if bad s1 then (Raise (HTTPError s1), World fs out (snt ++ [login]) clk)
      else
        let snt2 := (snt ++ [login]) ++ [Get genkey_url] in
        match transport (snt ++ [login]) (Get genkey_url) with
        | NoReply => (Raise ConnectionError, World fs out snt2 clk)
        | Reply s2 c2 =>
            if bad s2 then (Raise (HTTPError s2), World fs out snt2 clk)
            else
              match decode_utf8 (List.concat c2) with
              | None => (Raise UnicodeDecodeError, World fs out snt2 clk)
              | Some text =>
                  if str_in "html" text then
                    (Ok JNull,
                     World fs (out ++ ["Incorrect Username or Password" +:+ newline])
                       snt2 clk)
                  else
                    (Ok JNull,
                     World (<[dlauth_path := List.concat c2]> fs) out snt2 clk)
              end
        end
  end.
Proof.
  intros Hf login bad. unfold setup_dlauth. fold login.
  unfold bind at 1, is_file. cbn [files].
  rewrite bool_decide_false by (rewrite Hf; intros [? ?]; discriminate).
  cbn [negb].
  unfold bind at 1, send. cbn [files stdout sent clock].
  destruct (transport snt login) as [|s1 c1]; [reflexivity|].
  cbn [fst snd]. unfold raise_for_status. fold (bad s1).
  destruct (bad s1); [reflexivity|].
  unfold bind at 1, ret.
  unfold bind at 1, send. cbn [files stdout sent clock].
  destruct (transport (snt ++ [login]) (Get genkey_url)) as [|s2 c2]; [reflexivity|].
  cbn [fst snd]. fold (bad s2).
  destruct (bad s2); [reflexivity|].
  unfold bind at 1, ret. unfold bind at 1, lift.
  destruct (decode_utf8 (List.concat c2)) as [text|]; [|reflexivity].
  destruct (str_in "html" text); [reflexivity|].
  unfold bind, open_wb, write, ret, set_files. cbn [files stdout sent clock].
  rewrite lookup_insert_eq. cbn [default app]. now rewrite insert_insert_eq.
Qed.

Lemma setup_dlauth_present email fs out snt clk raw :
  fs !! dlauth_path = Some raw ->
  setup_dlauth email (World fs out snt clk)
  = read_dlauth
      (World fs (out ++ ["You already have an IRIDLAUTH (~/.pycpt_dlauth)!" +:+ newline])
         snt clk).
Proof.
  intros Hf. unfold setup_dlauth.
  unfold bind at 1, is_file. cbn [files].
  rewrite bool_decide_true by (rewrite Hf; eauto). reflexivity.
Qed.

(** X8. When the credential file exists, [setup_dlauth] does not ask for a
    password and issues no request: it prints that the file is there,
    leaves every file as it is and returns what [read_dlauth] returns. *)
Theorem setup_dlauth_keeps_existing email w raw :
  files w !! dlauth_path = Some raw ->
  exists tok more w',
    setup_dlauth email w = (Ok tok, w')
    /\ fst (read_dlauth w) = Ok tok
    /\ files w' = files w
    /\ sent w' = sent w
    /\ stdout w'
       = stdout w ++ ("You already have an IRIDLAUTH (~/.pycpt_dlauth)!" +:+ newline) :: more.
Proof.
  intros Hf. destruct w as [fs out snt clk]. cbn [files] in Hf.
  rewrite (setup_dlauth_present email fs out snt clk raw Hf).
  rewrite !read_dlauth_outcome. cbn [files stdout sent clock fst].
  do 3 eexists. split; [reflexivity|]. repeat split.
  now rewrite <- app_assoc.
Qed.

(** X9. When the server answers the login, or the request of the key, with
    a status from 400 to 599, [setup_dlauth] raises [HTTPError] for that
    status and writes no credential file; after a refused login the key is
    not requested. *)
Theorem setup_dlauth_http_error email w :
  let login :=
    Post login_url
      [("email", email);
       ("password", py_strip (getpass "DLAUTH PASSWORD: "));
       ("redirect", "https://iridl.ldeo.columbia.edu/auth")] [] in
  files w !! dlauth_path = None ->
  (forall s1 c1,
      transport (sent w) login = Reply s1 c1 -> 400 <= s1 < 600 ->
      setup_dlauth email w
      = (Raise (HTTPError s1), World (files w) (stdout w) (sent w ++ [login]) (clock w)))
  /\ (forall s1 c1 s2 c2,
        transport (sent w) login = Reply s1 c1 -> 200 <= s1 < 300 ->
        transport (sent w ++ [login]) (Get genkey_url) = Reply s2 c2 ->
        400 <= s2 < 600 ->
        setup_dlauth email w
        = (Raise (HTTPError s2),
           World (files w) (stdout w) (sent w ++ [login; Get genkey_url]) (clock w))).
Proof.
  intros login Hf. destruct w as [fs out snt clk]. cbn [files stdout sent clock] in *.
  split.
  - intros s1 c1 Ht Hs. rewrite (setup_dlauth_fresh email fs out snt clk Hf).
    fold login. rewrite Ht.
    replace ((400 <=? s1) && (s1 <? 600)) with true; [reflexivity|].
    symmetry. apply andb_true_intro. split; [apply Z.leb_le|apply Z.ltb_lt]; lia.
  - intros s1 c1 s2 c2 Ht1 Hs1 Ht2 Hs2.
    rewrite (setup_dlauth_fresh email fs out snt clk Hf).
    fold login. rewrite Ht1.
    replace ((400 <=? s1) && (s1 <? 600)) with false
      by (symmetry; apply andb_false_intro1, Z.leb_gt; lia).
    cbn zeta. rewrite Ht2.
    replace ((400 <=? s2) && (s2 <? 600)) with true
      by (symmetry; apply andb_true_intro; split;
          [apply Z.leb_le|apply Z.ltb_lt]; lia).
    now rewrite <- app_assoc.
Qed.

(** X10. When the answer to the request of the key holds [html],
    [setup_dlauth] prints that the user or the password is wrong, returns
    [None] and writes no credential file. *)
Theorem setup_dlauth_rejects_html_key email w s1 c1 s2 c2 text :
  let login :=
    Post login_url
      [("email", email);
       ("password", py_strip (getpass "DLAUTH PASSWORD: "));
       ("redirect", "https://iridl.ldeo.columbia.edu/auth")] [] in
  files w !! dlauth_path = None ->
  transport (sent w) login = Reply s1 c1 -> 200 <= s1 < 300 ->
  transport (sent w ++ [login]) (Get genkey_url) = Reply s2 c2 -> 200 <= s2 < 300 ->
  decode_utf8 (List.concat c2) = Some text ->
  str_in "html" text = true ->
  setup_dlauth email w
  = (Ok JNull,
     World (files w) (stdout w ++ ["Incorrect Username or Password" +:+ newline])
       (sent w ++ [login; Get genkey_url]) (clock w)).
Proof.
  intros login Hf Ht1 Hs1 Ht2 Hs2 Hd Hh.
  destruct w as [fs out snt clk]. cbn [files stdout sent clock] in *.
  rewrite (setup_dlauth_fresh email fs out snt clk Hf). fold login. rewrite Ht1.
  replace ((400 <=? s1) && (s1 <? 600)) with false
    by (symmetry; apply andb_false_intro1, Z.leb_gt; lia).
  cbn zeta. rewrite Ht2.
  replace ((400 <=? s2) && (s2 <? 600)) with false
    by (symmetry; apply andb_false_intro1, Z.leb_gt; lia).
  rewrite Hd, Hh. now rewrite <- app_assoc.
Qed.

(** X11. Setting up and reading back: after a first setup whose key answer
    is a JSON object with a member [key], [read_dlauth] returns that
    member, and a second [setup_dlauth] returns it too without issuing a
    request or touching the file. *)
Theorem setup_dlauth_then_read email w s1 c1 s2 c2 text members tok :
  let login :=
    Post login_url
      [("email", email);
       ("password", py_strip (getpass "DLAUTH PASSWORD: "));
       ("redirect", "https://iridl.ldeo.columbia.edu/auth")] [] in
  files w !! dlauth_path = None ->
  transport (sent w) login = Reply s1 c1 -> 200 <= s1 < 300 ->
  transport (sent w ++ [login]) (Get genkey_url) = Reply s2 c2 -> 200 <= s2 < 300 ->
  decode_utf8 (List.concat c2) = Some text ->
  str_in "html" text = false ->
  json_loads (List.concat c2) = Some (JObj members) ->
  assoc "key" members = Some tok ->
  exists w',
    setup_dlauth email w = (Ok JNull, w')
    /\ read_dlauth w' = (Ok tok, w')
    /\ exists w'',
         setup_dlauth email w' = (Ok tok, w'')
         /\ files w'' = files w' /\ sent w'' = sent w'.
Proof.
  intros login Hf Ht1 Hs1 Ht2 Hs2 Hd Hh Hj Hk.
  destruct w as [fs out snt clk]. cbn [files stdout sent clock] in *.
  rewrite (setup_dlauth_fresh email fs out snt clk Hf). fold login. rewrite Ht1.
  replace ((400 <=? s1) && (s1 <? 600)) with false
    by (symmetry; apply andb_false_intro1, Z.leb_gt; lia).
  cbn zeta. rewrite Ht2.
  replace ((400 <=? s2) && (s2 <? 600)) with false
    by (symmetry; apply andb_false_intro1, Z.leb_gt; lia).
  rewrite Hd, Hh.
  set (fs' := <[dlauth_path := List.concat c2]> fs).
  assert (Hf' : fs' !! dlauth_path = Some (List.concat c2))
    by apply lookup_insert_eq.
  assert (Hc : credential_of fs' = Key tok)
    by exact (credential_of_key fs' _ members tok Hf' Hj Hk).
  eexists. split; [reflexivity|]. split.
  - rewrite read_dlauth_outcome. cbn [files stdout sent clock].
    rewrite Hc. cbn. now rewrite app_nil_r.
  - rewrite (setup_dlauth_present email fs' _ _ _ _ Hf').
    rewrite read_dlauth_outcome. cbn [files stdout sent clock]. rewrite Hc.
    eexists. split; [reflexivity|]. split; reflexivity.
Qed.

(** X12. Whatever happens, [setup_dlauth] leaves every file other than the
    credential file as it is and issues at most two requests. *)
Theorem setup_dlauth_touches_only_credential_file email w :
  let w' := snd (setup_dlauth email w) in
  (forall path, path <> dlauth_path -> files w' !! path = files w !! path)
  /\ exists more, sent w' = sent w ++ more /\ (List.length more <= 2)%nat.
Proof.
  destruct w as [fs out snt clk].
  destruct (fs !! dlauth_path) as [raw|] eqn:Hf.
  - rewrite (setup_dlauth_present email fs out snt clk raw Hf).
    rewrite read_dlauth_outcome. cbn [snd files stdout sent clock]. split.
    + reflexivity.
    + exists []. split; [now rewrite app_nil_r|cbn; lia].
  - rewrite (setup_dlauth_fresh email fs out snt clk Hf).
    set (login := Post login_url _ _).
    assert (H1 : exists more, snt ++ [login] = snt ++ more /\ (List.length more <= 2)%nat)
      by (exists [login]; split; [reflexivity|cbn; lia]).
    assert (H2 : exists more,
               (snt ++ [login]) ++ [Get genkey_url] = snt ++ more
               /\ (List.length more <= 2)%nat)
      by (exists [login; Get genkey_url]; split;
          [now rewrite <- app_assoc|cbn; lia]).
    destruct (transport snt login) as [|s1 c1]; [now split|].
    destruct ((400 <=? s1) && (s1 <? 600)); [now split|]. cbn zeta.
    destruct (transport (snt ++ [login]) (Get genkey_url)) as [|s2 c2]; [now split|].
    destruct ((400 <=? s2) && (s2 <? 600)); [now split|].
    destruct (decode_utf8 (List.concat c2)) as [text|]; [|now split].
    destruct (str_in "html" text); [now split|].
    cbn [snd files sent]. split; [|exact H2].
    intros path Hp. now apply lookup_insert_ne.
Qed.

End CredentialMore.

(** ** [simple_download] *)

Section DownloadMore.
Context `{Platform}.

Lemma cycle_step j :
  0 <= j < 25 -> (if 25 <=? j + 1 then 0 else j + 1) = (j + 1) mod 25.
Proof.
  intros Hj. destruct (Z.leb_spec 25 (j + 1)).
  - replace (j + 1) with 25 by lia. reflexivity.
  - symmetry. apply Z.mod_small. lia.
Qed.

(** The loop, in full: the counters it ends with, the file it extends and
    the lines it prints, one per chunk when [verbose] is set. *)
Lemma stream_run path verbose start chunks :
  forall j total fs out snt clk content,
    fs !! path = Some content ->
    0 <= j < 25 ->
    exists lines clk',
      stream path verbose start chunks j total (World fs out snt clk)
      = (Ok ((j + Z.of_nat (List.length chunks)) mod 25, total + counted chunks),
         World (<[path := content ++ List.concat chunks]> fs) (out ++ lines) snt clk')
      /\ List.length lines = (if verbose then List.length chunks else 0%nat).
Proof.
  induction chunks as [|chunk rest IH]; intros j total fs out snt clk content Hf Hj.
  - exists [], clk. cbn [stream List.length List.concat counted ret].
    rewrite Z.add_0_r, Z.add_0_r, !app_nil_r, Z.mod_small by lia.
    rewrite insert_id by exact Hf. split; [reflexivity|now destruct verbose].
  - cbn [stream counted List.concat List.length].
    rewrite Z.add_assoc, app_assoc, (cycle_step j Hj).
    set (total1 := total + getsizeof chunk).
    assert (Hstep : exists line clk1,
      (forall k : unit -> io (Z * Z),
        bind (when verbose
           (t <- now ;;
            print (carriage_return
                   +:+ progress_line (repeat_char "*" (Z.to_nat (j + 1))
                                      +:+ repeat_char " " (Z.to_nat (25 - (j + 1))))
                                     total1 start t)
                  carriage_return)) k (World fs out snt clk)
        = k tt (World fs (out ++ line) snt clk1))
      /\ List.length line = (if verbose then 1%nat else 0%nat)).
    { destruct verbose.
      - do 2 eexists. split; [intros k; reflexivity|reflexivity].
      - exists [], clk. split; [|reflexivity]. intros k. now rewrite app_nil_r. }
    destruct Hstep as (line & clk1 & -> & Hline).
    unfold bind at 1, write, set_files. cbn [files stdout sent clock].
    rewrite Hf. cbn [default from_option id].
    destruct (IH ((j + 1) mod 25) total1 (<[path := content ++ chunk]> fs)
                (out ++ line) snt clk1 (content ++ chunk))
      as (lines & clk' & Hrun & Hlines).
    { apply lookup_insert_eq. }
    { apply Z.mod_pos_bound. lia. }
    exists (line ++ lines), clk'. split.
    + rewrite Hrun. f_equal.
      * do 2 f_equal. rewrite Zplus_mod_idemp_l. f_equal. lia.
      * f_equal; [apply insert_insert_eq|now rewrite <- app_assoc].
    + rewrite length_app, Hline, Hlines. now destruct verbose.
Qed.

(** X13. The loop of [simple_download] keeps its bar counter below 25: from
    a counter [j] it ends, after [n] chunks, with [(j + n) mod 25]; and its
    byte counter grows by the length of the body plus 33 for each chunk. *)
Theorem stream_counters path verbose start chunks j total w :
  0 <= j < 25 ->
  fst (stream path verbose start chunks j total w)
  = Ok ((j + Z.of_nat (List.length chunks)) mod 25,
        total + body_length chunks + 33 * Z.of_nat (List.length chunks)).
Proof.
  intros Hj. destruct w as [fs out snt clk].
  destruct (fs !! path) as [content|] eqn:Hf.
  - destruct (stream_run path verbose start chunks j total fs out snt clk content Hf Hj)
      as (lines & clk' & -> & _).
    cbn [fst]. now rewrite counted_overhead, Z.add_assoc.
  - (* the first write creates the file *)
    destruct chunks as [|chunk rest].
    + cbn [stream ret fst List.length counted]. unfold body_length. cbn.
      rewrite Z.add_0_r, Z.mod_small by lia. do 2 f_equal. lia.
    + cbn [stream].
      assert (Hstep : exists out1 clk1,
        forall k : unit -> io (Z * Z),
          bind (when verbose
             (t <- now ;;
              print (carriage_return
                     +:+ progress_line (repeat_char "*" (Z.to_nat (j + 1))
                                        +:+ repeat_char " " (Z.to_nat (25 - (j + 1))))
                                       (total + getsizeof chunk) start t)
                    carriage_return)) k (World fs out snt clk)
          = k tt (World fs out1 snt clk1))
        by (destruct verbose; do 2 eexists; intros k; reflexivity).
      destruct Hstep as (out1 & clk1 & ->).
      unfold bind at 1, write, set_files. cbn [files stdout sent clock].
      rewrite Hf. cbn [default from_option id app]. rewrite (cycle_step j Hj).
      destruct (stream_run path verbose start rest ((j + 1) mod 25)
                  (total + getsizeof chunk) (<[path := chunk]> fs) out1 snt clk1 chunk)
        as (lines & clk' & -> & _).
      { apply lookup_insert_eq. }
      { apply Z.mod_pos_bound. lia. }
      cbn [fst]. rewrite Zplus_mod_idemp_l, (counted_overhead rest).
      unfold body_length, getsizeof. cbn [List.concat List.length].
      rewrite length_app. f_equal. f_equal; [f_equal; lia|lia].
Qed.

(** What [transfer] does, by the answer of the server. *)
Lemma transfer_outcome url dest verbose cookies fs out snt clk :
  let rq := Post url [] cookies in
  exists lines clk',
    transfer url dest verbose cookies (World fs out snt clk)
    = match transport snt rq with
      | NoReply => (Raise ConnectionError, World fs out (snt ++ [rq]) clk)
      | Reply status chunks =>
          if (400 <=? status) && (status <? 600)
          then (Raise (HTTPError status), World fs out (snt ++ [rq]) clk)
          else (Ok (resolve dest),
                World (<[resolve dest := List.concat chunks]> fs) (out ++ lines)
                  (snt ++ [rq]) clk')
      end
    /\ (forall status chunks,
          transport snt rq = Reply status chunks ->
          (400 <=? status) && (status <? 600) = false ->
          List.length lines
          = if verbose then (List.length chunks + 2)%nat else 0%nat).
Proof.
  intros rq. unfold transfer. fold rq.
  unfold bind at 1, send. cbn [files stdout sent clock].
  destruct (transport snt rq) as [|status chunks].
  { exists [], clk. split; [reflexivity|discriminate]. }
  cbn [fst snd]. unfold raise_for_status.
  destruct ((400 <=? status) && (status <? 600)) eqn:Hbad.
  { exists [], clk. split; [reflexivity|]. intros ? ? [= <- <-] Hb. congruence. }
  unfold bind at 1, ret. unfold bind at 1, now. cbn [files stdout sent clock].
  assert (Hfirst : exists line clk1,
    (forall k : unit -> io string,
      bind (when verbose
         (t <- now ;;
          print (progress_line (repeat_char " " 25) 0 clk t) carriage_return))
        k (World fs out (snt ++ [rq]) (S clk))
      = k tt (World fs (out ++ line) (snt ++ [rq]) clk1))
    /\ List.length line = (if verbose then 1%nat else 0%nat)).
  { destruct verbose.
    - do 2 eexists. split; [intros k; reflexivity|reflexivity].
    - exists [], (S clk). split; [|reflexivity]. intros k. now rewrite app_nil_r. }
  destruct Hfirst as (line & clk1 & -> & Hline).
  unfold bind at 1, open_wb, set_files. cbn [files stdout sent clock].
  destruct (stream_run (resolve dest) verbose clk chunks 0 0
              (<[resolve dest := []]> fs) (out ++ line) (snt ++ [rq]) clk1 [])
    as (lines & clk2 & Hrun & Hlines); [apply lookup_insert_eq|lia|].
  rewrite (bind_ok _ _ _ _ _ Hrun). cbn [snd app].
  assert (Hlast : exists last clk3,
    (forall k : unit -> io string,
      bind (when verbose
         (t <- now ;;
          print (progress_line (repeat_char "*" 25) (0 + counted chunks) clk t)
            newline))
        k (World (<[resolve dest := List.concat chunks]> (<[resolve dest := []]> fs))
             ((out ++ line) ++ lines) (snt ++ [rq]) clk2)
      = k tt (World (<[resolve dest := List.concat chunks]> (<[resolve dest := []]> fs))
                (((out ++ line) ++ lines) ++ last) (snt ++ [rq]) clk3))
    /\ List.length last = (if verbose then 1%nat else 0%nat)).
  { destruct verbose.
    - do 2 eexists. split; [intros k; reflexivity|reflexivity].
    - exists [], clk2. split; [|reflexivity]. intros k. now rewrite app_nil_r. }
  destruct Hlast as (last & clk3 & -> & Hlast).
  unfold bind at 1, is_file. cbn [files stdout sent clock].
  rewrite bool_decide_true by (rewrite lookup_insert_eq; eauto).
  unfold bind at 1, ret.
  exists (line ++ lines ++ last), clk3. split.
  - unfold ret. f_equal. f_equal; [apply insert_insert_eq|].
    now rewrite <- !app_assoc.
  - intros ? ? [= <- <-] _. rewrite !length_app, Hline, Hlines, Hlast.
    destruct verbose; lia.
Qed.

(** [simple_download] up to the request, when the cookies are there. *)
Lemma simple_download_run url dest verbose use_dlauth w cookies :
  fst (auth_cookies use_dlauth w) = Ok cookies ->
  exists shown,
    simple_download url dest verbose use_dlauth w
    = transfer url dest verbose cookies
        (World (files w) (stdout w ++ shown) (sent w) (clock w))
    /\ ((py_str use_dlauth =? "True")%string = false ->
        shown = if verbose then ["URL: " +:+ url +:+ newline; newline] else []).
Proof.
  intros Ha. destruct w as [fs out snt clk].
  rewrite auth_cookies_outcome in Ha. cbn [files stdout sent clock] in Ha.
  unfold simple_download, announce.
  assert (Hfirst : forall k : unit -> io string,
    bind (when verbose (print ("URL: " +:+ url) newline ;; print "" newline))
      k (World fs out snt clk)
    = k tt (World fs (out ++ (if verbose then ["URL: " +:+ url +:+ newline; newline]
                              else [])) snt clk)).
  { intros k. destruct verbose.
    - unfold bind, when, print. cbn [files stdout sent clock].
      now rewrite <- app_assoc.
    - unfold bind, when, ret. now rewrite app_nil_r. }
  rewrite Hfirst. unfold bind at 1. rewrite auth_cookies_outcome.
  cbn [files stdout sent clock].
  destruct (py_str use_dlauth =? "True")%string.
  - cbn zeta in Ha |- *.
    destruct (is_none (token_of (credential_of fs))); [discriminate|].
    cbn [fst] in Ha. injection Ha as <-.
    eexists. split; [now rewrite <- app_assoc|discriminate].
  - cbn [fst] in Ha. injection Ha as <-.
    eexists. split; [reflexivity|reflexivity].
Qed.

(** X14. An answer with a status from 400 to 599 is not downloaded:
    [simple_download] raises [HTTPError] for the status after its one
    request, and no file is created or changed. *)
Theorem simple_download_http_error url dest verbose use_dlauth w cookies status chunks :
  fst (auth_cookies use_dlauth w) = Ok cookies ->
  transport (sent w) (Post url [] cookies) = Reply status chunks ->
  400 <= status < 600 ->
  exists w',
    simple_download url dest verbose use_dlauth w = (Raise (HTTPError status), w')
    /\ files w' = files w
    /\ sent w' = sent w ++ [Post url [] cookies].
Proof.
  intros Ha Ht Hs.
  destruct (simple_download_run url dest verbose use_dlauth w cookies Ha)
    as (shown & -> & _).
  destruct (transfer_outcome url dest verbose cookies (files w)
              (stdout w ++ shown) (sent w) (clock w)) as (lines & clk' & -> & _).
  cbn zeta. rewrite Ht.
  replace ((400 <=? status) && (status <? 600)) with true
    by (symmetry; apply andb_true_intro; split;
        [apply Z.leb_le|apply Z.ltb_lt]; lia).
  eexists. split; [reflexivity|]. split; reflexivity.
Qed.

Lemma simple_download_refused url dest verbose use_dlauth w e :
  fst (auth_cookies use_dlauth w) = Raise e ->
  exists shown,
    simple_download url dest verbose use_dlauth w
    = (Raise e, World (files w) (stdout w ++ shown) (sent w) (clock w)).
Proof.
  intros Ha. destruct w as [fs out snt clk].
  rewrite auth_cookies_outcome in Ha. cbn [files stdout sent clock] in Ha.
  unfold simple_download, announce.
  assert (Hfirst : exists shown, forall k : unit -> io string,
    bind (when verbose (print ("URL: " +:+ url) newline ;; print "" newline))
      k (World fs out snt clk)
    = k tt (World fs (out ++ shown) snt clk)).
  { destruct verbose.
    - eexists. intros k. unfold bind, when, print. cbn [files stdout sent clock].
      now rewrite <- app_assoc.
    - exists []. intros k. unfold bind, when, ret. now rewrite app_nil_r. }
  destruct Hfirst as (shown & ->).
  unfold bind at 1. rewrite auth_cookies_outcome. cbn [files stdout sent clock].
  destruct (py_str use_dlauth =? "True")%string; [|discriminate].
  cbn zeta in Ha |- *.
  destruct (is_none (token_of (credential_of fs))); [|discriminate].
  cbn [fst] in Ha. injection Ha as <-.
  eexists. now rewrite <- app_assoc.
Qed.

Lemma auth_cookies_modelled use_dlauth w : fst (auth_cookies use_dlauth w) <> Unmodelled.
Proof.
  rewrite auth_cookies_outcome.
  destruct (py_str use_dlauth =? "True")%string; [|discriminate].
  cbn zeta. destruct (is_none (token_of (credential_of (files w)))); discriminate.
Qed.

(** X15. Whatever happens, [simple_download] leaves every file other than
    the resolved destination as it is, and issues at most one request. *)
Theorem simple_download_touches_only_destination url dest verbose use_dlauth w :
  let w' := snd (simple_download url dest verbose use_dlauth w) in
  (forall path, path <> resolve dest -> files w' !! path = files w !! path)
  /\ exists more, sent w' = sent w ++ more /\ (List.length more <= 1)%nat.
Proof.
  cbn zeta.
  destruct (fst (auth_cookies use_dlauth w)) as [cookies|e|] eqn:Hauth.
  - destruct (simple_download_run url dest verbose use_dlauth w cookies Hauth)
      as (shown & -> & _).
    destruct (transfer_outcome url dest verbose cookies (files w)
                (stdout w ++ shown) (sent w) (clock w)) as (lines & clk' & -> & _).
    cbn zeta.
    assert (Hone : exists more,
               sent w ++ [Post url [] cookies] = sent w ++ more
               /\ (List.length more <= 1)%nat)
      by (eexists; split; [reflexivity|cbn; lia]).
    destruct (transport (sent w) (Post url [] cookies)) as [|status chunks];
      [now split|].
    destruct ((400 <=? status) && (status <? 600)); [now split|].
    cbn [snd files sent]. split; [|exact Hone].
    intros path Hp. now apply lookup_insert_ne.
  - destruct (simple_download_refused url dest verbose use_dlauth w e Hauth)
      as (shown & ->).
    cbn [snd files sent]. split; [reflexivity|].
    exists []. split; [now rewrite app_nil_r|cbn; lia].
  - now destruct (auth_cookies_modelled use_dlauth w).
Qed.

(** X16. Without [verbose], and when the token is not asked for,
    [simple_download] prints nothing; with [verbose], a download that
    succeeds prints the URL, an empty line, the empty bar, one update for
    each chunk and the summary. *)
Theorem simple_download_output url dest verbose use_dlauth w status chunks :
  py_str use_dlauth <> "True" ->
  transport (sent w) (Post url [] []) = Reply status chunks ->
  200 <= status < 300 ->
  exists lines w',
    simple_download url dest verbose use_dlauth w = (Ok (resolve dest), w')
    /\ stdout w' = stdout w ++ lines
    /\ List.length lines = (if verbose then (List.length chunks + 4)%nat else 0%nat)
    /\ (verbose = true ->
          exists rest, lines = ("URL: " +:+ url +:+ newline) :: newline :: rest).
Proof.
  intros Hs Ht Hok. apply String.eqb_neq in Hs.
  assert (Ha : fst (auth_cookies use_dlauth w) = Ok [])
    by (rewrite auth_cookies_outcome, Hs; reflexivity).
  destruct (simple_download_run url dest verbose use_dlauth w [] Ha)
    as (shown & -> & Hshown).
  rewrite (Hshown Hs).
  destruct (transfer_outcome url dest verbose [] (files w)
              (stdout w ++ (if verbose then ["URL: " +:+ url +:+ newline; newline] else []))
              (sent w) (clock w)) as (lines & clk' & -> & Hlen).
  cbn zeta in *. rewrite Ht.
  assert (Hgood : (400 <=? status) && (status <? 600) = false)
    by (apply andb_false_intro1, Z.leb_gt; lia).
  rewrite Hgood. specialize (Hlen status chunks Ht Hgood).
  exists ((if verbose then ["URL: " +:+ url +:+ newline; newline] else []) ++ lines).
  eexists. split; [reflexivity|]. cbn [stdout]. split; [now rewrite <- app_assoc|].
  split.
  - rewrite length_app, Hlen. destruct verbose; cbn; lia.
  - intros ->. now exists lines.
Qed.

End DownloadMore.

(** ** [download] *)

Section OrchestratorMore.
Context `{Platform}.

Lemma known_format_ok format :
  format = VStr "cptv10.tsv" \/ format = VStr "data.nc" ->
  is_known_format format = Ok true.
Proof. intros [->| ->]; reflexivity. Qed.

(** [download] from the request on, once the format is accepted and the
    template evaluated. *)
Lemma download_known baseurl dest verbose use_dlauth kwargs format url w :
  assoc "filetype" kwargs = Some format ->
  format = VStr "cptv10.tsv" \/ format = VStr "data.nc" ->
  call_evaluate_url baseurl kwargs = Ok url ->
  download baseurl dest verbose use_dlauth kwargs w
  = (path <- simple_download url dest verbose use_dlauth ;;
     try_except (open_downloaded format path)
       (raise (PyCPT_ERROR (msg_broken url)))) w.
Proof.
  intros Hf Hk Hu. unfold download. rewrite Hf.
  unfold bind at 1, ret. unfold bind at 1, lift.
  rewrite (known_format_ok format Hk).
  unfold bind at 1, ret. unfold bind at 1, try_except, lift. rewrite Hu.
  reflexivity.
Qed.

(** X17. When the template cannot be evaluated, [download] fails with
    [PyCPT_ERROR], whose message shows the template and the keyword
    parameters, and no request has been issued. *)
Theorem download_template_failure baseurl dest verbose use_dlauth kwargs format e w :
  assoc "filetype" kwargs = Some format ->
  format = VStr "cptv10.tsv" \/ format = VStr "data.nc" ->
  call_evaluate_url baseurl kwargs = Raise e ->
  download baseurl dest verbose use_dlauth kwargs w
  = (Raise (PyCPT_ERROR
       ("You must pass all the required arguments for this URL as keyword arguments in .download(...). "
        +:+ newline +:+ " URL: " +:+ baseurl
        +:+ newline +:+ " ARGS: " +:+ py_repr (VDict kwargs))), w).
Proof.
  intros Hf Hk He. unfold download. rewrite Hf.
  unfold bind at 1, ret. unfold bind at 1, lift.
  rewrite (known_format_ok format Hk).
  unfold bind at 1, ret. unfold bind at 1, try_except, lift. rewrite He.
  reflexivity.
Qed.

(** X18. A keyword parameter named [url] cannot reach the template: it
    collides with the first argument of [evaluate_url], so that [download]
    fails with [PyCPT_ERROR] whatever the template is, before any request. *)
Theorem download_rejects_url_keyword baseurl dest verbose use_dlauth kwargs format v w :
  assoc "filetype" kwargs = Some format ->
  format = VStr "cptv10.tsv" \/ format = VStr "data.nc" ->
  assoc "url" kwargs = Some v ->
  download baseurl dest verbose use_dlauth kwargs w
  = (Raise (PyCPT_ERROR (msg_missing_arguments baseurl kwargs)), w).
Proof.
  intros Hf Hk Hu. unfold download. rewrite Hf.
  unfold bind at 1, ret. unfold bind at 1, lift.
  rewrite (known_format_ok format Hk).
  unfold bind at 1, ret. unfold bind at 1, try_except, lift.
  unfold call_evaluate_url, has_key. rewrite Hu. reflexivity.
Qed.

(** X19. The three steps compose: when the template evaluates to a URL,
    the request for it is answered with a status from 200 to 299 and the
    parser of the format accepts the body, [download] returns what that
    parser makes of the chunks joined in order ([open_cptdataset] for
    ['cptv10.tsv'], [open_dataset] for ['data.nc']), and the body is in the
    destination file. *)
Theorem download_returns_parsed baseurl dest verbose use_dlauth kwargs ft url
    cookies status chunks ds w :
  assoc "filetype" kwargs = Some (VStr ft) ->
  ft = "cptv10.tsv" \/ ft = "data.nc" ->
  call_evaluate_url baseurl kwargs = Ok url ->
  fst (auth_cookies use_dlauth w) = Ok cookies ->
  transport (sent w) (Post url [] cookies) = Reply status chunks ->
  200 <= status < 300 ->
  (if String.eqb ft "cptv10.tsv" then open_cptdataset (List.concat chunks)
   else open_dataset (List.concat chunks)) = Some ds ->
  exists w',
    download baseurl dest verbose use_dlauth kwargs w = (Ok ds, w')
    /\ files w' !! resolve dest = Some (List.concat chunks).
Proof.
  intros Hf Hft Hu Ha Ht Hs Hp.
  assert (Hk : VStr ft = VStr "cptv10.tsv" \/ VStr ft = VStr "data.nc")
    by (destruct Hft as [->| ->]; [now left|now right]).
  rewrite (download_known _ _ _ _ _ _ url w Hf Hk Hu).
  destruct (simple_download_run url dest verbose use_dlauth w cookies Ha)
    as (shown & Hrun & _).
  destruct (transfer_outcome url dest verbose cookies (files w)
              (stdout w ++ shown) (sent w) (clock w)) as (lines & clk' & Htr & _).
  cbn zeta in Htr. rewrite Ht in Htr.
  replace ((400 <=? status) && (status <? 600)) with false in Htr
    by (symmetry; apply andb_false_intro1, Z.leb_gt; lia).
  rewrite Htr in Hrun. rewrite (bind_ok _ _ _ _ _ Hrun).
  eexists. split.
  - unfold try_except, open_downloaded, bind, read_file. cbn [files].
    rewrite lookup_insert_eq.
    destruct Hft as [->| ->]; cbn in Hp |- *; now rewrite Hp.
  - cbn [files]. apply lookup_insert_eq.
Qed.

(** X20. When the parser of the format refuses the body, [download] fails
    with [PyCPT_ERROR], whose message shows the URL, and the body stays in
    the destination file. *)
Theorem download_parse_failure baseurl dest verbose use_dlauth kwargs ft url
    cookies status chunks w :
  assoc "filetype" kwargs = Some (VStr ft) ->
  ft = "cptv10.tsv" \/ ft = "data.nc" ->
  call_evaluate_url baseurl kwargs = Ok url ->
  fst (auth_cookies use_dlauth w) = Ok cookies ->
  transport (sent w) (Post url [] cookies) = Reply status chunks ->
  200 <= status < 300 ->
  (if String.eqb ft "cptv10.tsv" then open_cptdataset (List.concat chunks)
   else open_dataset (List.concat chunks)) = None ->
  exists w',
    download baseurl dest verbose use_dlauth kwargs w
    = (Raise (PyCPT_ERROR
                ("Please check what's downloaded from here, it may be a broken: " +:+ url)),
       w')
    /\ files w' !! resolve dest = Some (List.concat chunks).
Proof.
  intros Hf Hft Hu Ha Ht Hs Hp.
  assert (Hk : VStr ft = VStr "cptv10.tsv" \/ VStr ft = VStr "data.nc")
    by (destruct Hft as [->| ->]; [now left|now right]).
  rewrite (download_known _ _ _ _ _ _ url w Hf Hk Hu).
  destruct (simple_download_run url dest verbose use_dlauth w cookies Ha)
    as (shown & Hrun & _).
  destruct (transfer_outcome url dest verbose cookies (files w)
              (stdout w ++ shown) (sent w) (clock w)) as (lines & clk' & Htr & _).
  cbn zeta in Htr. rewrite Ht in Htr.
  replace ((400 <=? status) && (status <? 600)) with false in Htr
    by (symmetry; apply andb_false_intro1, Z.leb_gt; lia).
  rewrite Htr in Hrun. rewrite (bind_ok _ _ _ _ _ Hrun).
  eexists. split.
  - unfold try_except, open_downloaded, bind, read_file. cbn [files].
    rewrite lookup_insert_eq.
    destruct Hft as [->| ->]; cbn in Hp |- *; now rewrite Hp.
  - cbn [files]. apply lookup_insert_eq.
Qed.

(** X21. A failure of the download passes through [download] as it is: an
    answer with a status from 400 to 599 raises [HTTPError], and a missing
    token, when [use_dlauth] is [True], raises [AssertionError] before any
    request; neither is turned into [PyCPT_ERROR], and no file is written. *)
Theorem download_passes_download_errors baseurl dest verbose use_dlauth kwargs format url w :
  assoc "filetype" kwargs = Some format ->
  format = VStr "cptv10.tsv" \/ format = VStr "data.nc" ->
  call_evaluate_url baseurl kwargs = Ok url ->
  (forall cookies status chunks,
      fst (auth_cookies use_dlauth w) = Ok cookies ->
      transport (sent w) (Post url [] cookies) = Reply status chunks ->
      400 <= status < 600 ->
      exists w',
        download baseurl dest verbose use_dlauth kwargs w = (Raise (HTTPError status), w')
        /\ files w' = files w)
  /\ (py_str use_dlauth = "True" ->
      fst (read_dlauth w) = Ok JNull ->
      exists w',
        download baseurl dest verbose use_dlauth kwargs w
        = (Raise (AssertionError msg_no_cookie), w')
        /\ files w' = files w /\ sent w' = sent w).
Proof.
  intros Hf Hk Hu. rewrite (download_known _ _ _ _ _ _ url w Hf Hk Hu). split.
  - intros cookies status chunks Ha Ht Hs.
    destruct (simple_download_run url dest verbose use_dlauth w cookies Ha)
      as (shown & Hrun & _).
    destruct (transfer_outcome url dest verbose cookies (files w)
                (stdout w ++ shown) (sent w) (clock w)) as (lines & clk' & Htr & _).
    cbn zeta in Htr. rewrite Ht in Htr.
    replace ((400 <=? status) && (status <? 600)) with true in Htr
      by (symmetry; apply andb_true_intro; split;
          [apply Z.leb_le|apply Z.ltb_lt]; lia).
    rewrite Htr in Hrun. rewrite (bind_raise _ _ _ _ _ Hrun).
    eexists. split; reflexivity.
  - intros Hs Hr. rewrite read_dlauth_outcome in Hr. cbn [fst] in Hr.
    injection Hr as Hr.
    assert (Ha : fst (auth_cookies use_dlauth w) = Raise (AssertionError msg_no_cookie)).
    { rewrite auth_cookies_outcome. apply String.eqb_eq in Hs. rewrite Hs.
      cbn zeta. now rewrite Hr. }
    destruct (simple_download_refused url dest verbose use_dlauth w _ Ha)
      as (shown & Hrun).
    rewrite (bind_raise _ _ _ _ _ Hrun).
    eexists. split; [reflexivity|]. split; reflexivity.
Qed.

End OrchestratorMore.

(** ** [s2s_login] and [c3s_login] *)

Section LoginFacts.
Context `{Platform}.

(** What a login check does, by the answer of the server; [failed] and
    [passed] are what it prints in the two cases. *)
Lemma s2s_login_run email fs out snt clk :
  let rq :=
    Post login_url
      [("email", email);
       ("password", py_strip (getpass "DLAUTH PASSWORD: "));
       ("redirect", s2s_redirect)] [] in
  let w1 := World fs out (snt ++ [rq]) clk in
  s2s_login email (World fs out snt clk)
  = match transport snt rq with
    | NoReply => (Raise ConnectionError, w1)
    | Reply status chunks =>
        if (400 <=? status) && (status <? 600) then (Raise (HTTPError status), w1)
        else
          match decode_utf8 (List.concat chunks) with
          | None => (Raise UnicodeDecodeError, w1)
          | Some text =>
              (Ok tt,
               World fs
                 (out ++ (if str_in access_phrase text
                          then [msg_s2s_agreement +:+ newline]
                          else [msg_incorrect_user +:+ newline; text +:+ newline]))
                 (snt ++ [rq]) clk)
          end
    end.
Proof.
  intros rq w1. unfold s2s_login. fold rq.
  unfold bind at 1, send. cbn [files stdout sent clock].
  destruct (transport snt rq) as [|status chunks]; [reflexivity|].
  cbn [fst snd]. unfold raise_for_status.
  destruct ((400 <=? status) && (status <? 600)); [reflexivity|].
  unfold bind at 1, ret. unfold bind at 1, decode, lift.
  destruct (decode_utf8 (List.concat chunks)) as [text|]; [|reflexivity].
  destruct (str_in access_phrase text); cbn [negb].
  - reflexivity.
  - unfold bind, print. cbn [files stdout sent clock].
    now rewrite <- app_assoc.
Qed.

Lemma c3s_login_run email fs out snt clk :
  let rq :=
    Post login_url
      [("email", email);
       ("password", py_strip (getpass "DLAUTH PASSWORD: "));
       ("redirect", c3s_redirect)] [] in
  let w1 := World fs out (snt ++ [rq]) clk in
  c3s_login email (World fs out snt clk)
  = match transport snt rq with
    | NoReply => (Raise ConnectionError, w1)
    | Reply status chunks =>
        if (400 <=? status) && (status <? 600) then (Raise (HTTPError status), w1)
        else
          match decode_utf8 (List.concat chunks) with
          | None => (Raise UnicodeDecodeError, w1)
          | Some text =>
              (Ok tt,
               World fs
                 (out ++ [(if str_in access_phrase text
                           then msg_c3s_agreement else msg_incorrect_user)
                          +:+ newline])
                 (snt ++ [rq]) clk)
          end
    end.
Proof.
  intros rq w1. unfold c3s_login. fold rq.
  unfold bind at 1, send. cbn [files stdout sent clock].
  destruct (transport snt rq) as [|status chunks]; [reflexivity|].
  cbn [fst snd]. unfold raise_for_status.
  destruct ((400 <=? status) && (status <? 600)); [reflexivity|].
  unfold bind at 1, ret. unfold bind at 1, decode, lift.
  destruct (decode_utf8 (List.concat chunks)) as [text|]; [|reflexivity].
  destruct (str_in access_phrase text); reflexivity.
Qed.

(** X22. The two login checks decide by the text of the answer, not by its
    status: on an answer with a status from 200 to 299 both return [None],
    and print the agreement notice exactly when the text holds the access
    phrase; otherwise both print that the user or the password is wrong,
    and [s2s_login] alone prints the answer after it. *)
Theorem login_checks_decide_by_text email w status chunks text :
  let post redirect :=
    Post login_url
      [("email", email);
       ("password", py_strip (getpass "DLAUTH PASSWORD: "));
       ("redirect", redirect)] [] in
  200 <= status < 300 ->
  decode_utf8 (List.concat chunks) = Some text ->
  (transport (sent w) (post s2s_redirect) = Reply status chunks ->
     s2s_login email w
     = (Ok tt,
        World (files w)
          (stdout w ++ (if str_in access_phrase text
                        then [msg_s2s_agreement +:+ newline]
                        else [msg_incorrect_user +:+ newline; text +:+ newline]))
          (sent w ++ [post s2s_redirect]) (clock w)))
  /\ (transport (sent w) (post c3s_redirect) = Reply status chunks ->
        c3s_login email w
        = (Ok tt,
           World (files w)
             (stdout w ++ [(if str_in access_phrase text
                            then msg_c3s_agreement else msg_incorrect_user)
                           +:+ newline])
             (sent w ++ [post c3s_redirect]) (clock w))).
Proof.
  intros post Hs Hd. destruct w as [fs out snt clk]. cbn [files stdout sent clock].
  assert (Hgood : (400 <=? status) && (status <? 600) = false)
    by (apply andb_false_intro1, Z.leb_gt; lia).
  split; intros Ht.
  - rewrite s2s_login_run. cbn zeta. fold (post s2s_redirect).
    now rewrite Ht, Hgood, Hd.
  - rewrite c3s_login_run. cbn zeta. fold (post c3s_redirect).
    now rewrite Ht, Hgood, Hd.
Qed.

(** X23. Whatever the answer, the two login checks issue exactly one
    request, the login with the password stripped of surrounding white
    space, and write no file; in particular they store no token. *)
Theorem login_checks_store_nothing email w :
  let post redirect :=
    Post login_url
      [("email", email);
       ("password", py_strip (getpass "DLAUTH PASSWORD: "));
       ("redirect", redirect)] [] in
  (files (snd (s2s_login email w)) = files w
   /\ sent (snd (s2s_login email w)) = sent w ++ [post s2s_redirect])
  /\ (files (snd (c3s_login email w)) = files w
      /\ sent (snd (c3s_login email w)) = sent w ++ [post c3s_redirect]).
Proof.
  intros post. destruct w as [fs out snt clk]. cbn [files sent]. split.
  - rewrite s2s_login_run. cbn zeta. fold (post s2s_redirect).
    destruct (transport snt (post s2s_redirect)) as [|status chunks]; [now split|].
    destruct ((400 <=? status) && (status <? 600)); [now split|].
    destruct (decode_utf8 (List.concat chunks)); now split.
  - rewrite c3s_login_run. cbn zeta. fold (post c3s_redirect).
    destruct (transport snt (post c3s_redirect)) as [|status chunks]; [now split|].
    destruct ((400 <=? status) && (status <? 600)); [now split|].
    destruct (decode_utf8 (List.concat chunks)); now split.
Qed.

(** X24. On an answer with a status from 400 to 599 the two login checks
    raise [HTTPError] for the status and print nothing. *)
Theorem login_checks_http_error email w status chunks :
  let post redirect :=
    Post login_url
      [("email", email);
       ("password", py_strip (getpass "DLAUTH PASSWORD: "));
       ("redirect", redirect)] [] in
  400 <= status < 600 ->
  (transport (sent w) (post s2s_redirect) = Reply status chunks ->
     fst (s2s_login email w) = Raise (HTTPError status)
     /\ stdout (snd (s2s_login email w)) = stdout w)
  /\ (transport (sent w) (post c3s_redirect) = Reply status chunks ->
        fst (c3s_login email w) = Raise (HTTPError status)
        /\ stdout (snd (c3s_login email w)) = stdout w).
Proof.
  intros post Hs. destruct w as [fs out snt clk]. cbn [files stdout sent clock].
  assert (Hbad : (400 <=? status) && (status <? 600) = true)
    by (apply andb_true_intro; split; [apply Z.leb_le|apply Z.ltb_lt]; lia).
  split; intros Ht.
  - rewrite s2s_login_run. cbn zeta. fold (post s2s_redirect).
    rewrite Ht, Hbad. now split.
  - rewrite c3s_login_run. cbn zeta. fold (post c3s_redirect).
    rewrite Ht, Hbad. now split.
Qed.

End LoginFacts.

(** ** The further properties on concrete inputs *)

Lemma read_dlauth_returns_key_witness :
  @read_dlauth demo (dlauth_world demo_key_file)
  = (Ok (JStr "tok"), dlauth_world demo_key_file).
Proof.
  apply (@read_dlauth_returns_key demo (dlauth_world demo_key_file) demo_key_file
           [("key", JStr "tok")] (JStr "tok")); reflexivity.
Defined.

Lemma read_dlauth_diagnostics_witness :
  @read_dlauth demo empty_world
  = (Ok JNull, World ∅ [msg_need_setup +:+ newline] [] 0)
  /\ @read_dlauth demo (dlauth_world (bytes_of "<html>denied</html>"))
     = (Ok JNull,
        World {[ "/home/user/.pycpt_dlauth" := bytes_of "<html>denied</html>" ]}
          [msg_looks_html +:+ newline] [] 0)
  /\ @read_dlauth demo (dlauth_world [xff])
     = (Ok JNull,
        World {[ "/home/user/.pycpt_dlauth" := [xff] ]}
          [msg_unreadable +:+ newline] [] 0).
Proof.
  split; [|split].
  - apply (proj1 (@read_dlauth_diagnostics demo empty_world)). reflexivity.
  - refine (proj1 (proj2 (@read_dlauth_diagnostics demo
                            (dlauth_world (bytes_of "<html>denied</html>")))
                     (bytes_of "<html>denied</html>") eq_refl _)
              "<html>denied</html>" eq_refl eq_refl).
    intros j tok Hj. discriminate Hj.
  - refine (proj2 (proj2 (@read_dlauth_diagnostics demo (dlauth_world [xff]))
                     [xff] eq_refl _) eq_refl).
    intros j tok Hj. discriminate Hj.
Defined.

Lemma setup_dlauth_keeps_existing_witness :
  exists tok more w',
    @setup_dlauth demo "user@example.org" (dlauth_world demo_key_file) = (Ok tok, w')
    /\ fst (@read_dlauth demo (dlauth_world demo_key_file)) = Ok tok
    /\ files w' = files (dlauth_world demo_key_file)
    /\ sent w' = []
    /\ stdout w'
       = [] ++ ("You already have an IRIDLAUTH (~/.pycpt_dlauth)!" +:+ newline) :: more.
Proof.
  apply (@setup_dlauth_keeps_existing demo "user@example.org"
           (dlauth_world demo_key_file) demo_key_file).
  reflexivity.
Defined.

Lemma setup_dlauth_http_error_witness :
  fst (@setup_dlauth (demo_answering 403 "") "user@example.org" empty_world)
  = Raise (HTTPError 403)
  /\ fst (@setup_dlauth demo_key_refused "user@example.org" empty_world)
     = Raise (HTTPError 500).
Proof.
  split.
  - rewrite (proj1 (@setup_dlauth_http_error (demo_answering 403 "")
                      "user@example.org" empty_world eq_refl)
               403 [bytes_of ""] eq_refl); [reflexivity|lia].
  - rewrite (proj2 (@setup_dlauth_http_error demo_key_refused
                      "user@example.org" empty_world eq_refl)
               200 [] 500 [] eq_refl); [reflexivity|lia|reflexivity|lia].
Defined.

Lemma setup_dlauth_rejects_html_key_witness :
  fst (@setup_dlauth (demo_answering 200 "<html>denied</html>") "user@example.org"
         empty_world) = Ok JNull
  /\ files (snd (@setup_dlauth (demo_answering 200 "<html>denied</html>")
                   "user@example.org" empty_world)) = ∅.
Proof.
  rewrite (@setup_dlauth_rejects_html_key (demo_answering 200 "<html>denied</html>")
             "user@example.org" empty_world
             200 [bytes_of "<html>denied</html>"]
             200 [bytes_of "<html>denied</html>"] "<html>denied</html>");
    try reflexivity; try lia.
  split; reflexivity.
Defined.

Lemma setup_dlauth_then_read_witness :
  exists w',
    @setup_dlauth demo "user@example.org" empty_world = (Ok JNull, w')
    /\ @read_dlauth demo w' = (Ok (JStr "tok"), w')
    /\ exists w'',
         @setup_dlauth demo "user@example.org" w' = (Ok (JStr "tok"), w'')
         /\ files w'' = files w' /\ sent w'' = sent w'.
Proof.
  apply (@setup_dlauth_then_read demo "user@example.org" empty_world
           200 [] 200 [demo_key_file] demo_key_text [("key", JStr "tok")]);
    try reflexivity; lia.
Defined.

Lemma stream_counters_witness :
  fst (@stream demo "/work/out.bin" true 0%nat
         [bytes_of "abc"; bytes_of "de"; bytes_of "f"] 24 0 empty_world)
  = Ok (2, 105).
Proof.
  apply (@stream_counters demo "/work/out.bin" true 0%nat
           [bytes_of "abc"; bytes_of "de"; bytes_of "f"] 24 0 empty_world).
  lia.
Defined.

Lemma simple_download_http_error_witness :
  exists w',
    @simple_download demo "http://x/missing" "out.tsv" false (VBool false) empty_world
    = (Raise (HTTPError 404), w')
    /\ files w' = ∅
    /\ sent w' = [] ++ [Post "http://x/missing" [] []].
Proof.
  apply (@simple_download_http_error demo "http://x/missing" "out.tsv" false
           (VBool false) empty_world [] 404 []); try reflexivity. lia.
Defined.

Lemma simple_download_output_witness :
  exists lines w',
    @simple_download demo "http://x/a" "out.tsv" true (VBool false) empty_world
    = (Ok "/work/out.tsv", w')
    /\ stdout w' = [] ++ lines
    /\ List.length lines = 8%nat
    /\ (true = true ->
        exists rest, lines = ("URL: http://x/a" +:+ newline) :: newline :: rest).
Proof.
  apply (@simple_download_output demo "http://x/a" "out.tsv" true (VBool false)
           empty_world 200 [bytes_of "abc"; bytes_of "de"; []; bytes_of "f"]);
    try reflexivity; try discriminate. lia.
Defined.

Lemma download_template_failure_witness :
  fst (@download demo "http://x/{first_year}.nc" "out.nc" false (VBool false)
         [("filetype", VStr "data.nc")] empty_world)
  = Raise (PyCPT_ERROR
             ("You must pass all the required arguments for this URL as keyword arguments in .download(...). "
              +:+ newline +:+ " URL: http://x/{first_year}.nc"
              +:+ newline +:+ " ARGS: {'filetype': 'data.nc'}")).
Proof.
  rewrite (@download_template_failure demo "http://x/{first_year}.nc" "out.nc" false
             (VBool false) [("filetype", VStr "data.nc")] (VStr "data.nc")
             (NameError "first_year") empty_world eq_refl (or_intror eq_refl) eq_refl).
  reflexivity.
Defined.

Lemma download_rejects_url_keyword_witness :
  @download demo "http://x/{url}" "out.nc" false (VBool false)
    [("filetype", VStr "data.nc"); ("url", VStr "data")] empty_world
  = (Raise (PyCPT_ERROR
              (msg_missing_arguments "http://x/{url}"
                 [("filetype", VStr "data.nc"); ("url", VStr "data")])),
     empty_world).
Proof.
  apply (@download_rejects_url_keyword demo "http://x/{url}" "out.nc" false
           (VBool false) _ (VStr "data.nc") (VStr "data"));
    [reflexivity|now right|reflexivity].
Defined.

Lemma download_returns_parsed_witness :
  exists w',
    @download demo "http://x/{first_year}.tsv" "out.tsv" false (VBool false)
      [("filetype", VStr "cptv10.tsv"); ("first_year", VInt 1982)] empty_world
    = (Ok (bytes_of "abcdef"), w')
    /\ files w' !! "/work/out.tsv" = Some (bytes_of "abcdef").
Proof.
  apply (@download_returns_parsed demo "http://x/{first_year}.tsv" "out.tsv" false
           (VBool false)
           [("filetype", VStr "cptv10.tsv"); ("first_year", VInt 1982)]
           "cptv10.tsv" "http://x/1982.tsv" [] 200
           [bytes_of "abc"; bytes_of "de"; []; bytes_of "f"] (bytes_of "abcdef")
           empty_world); try reflexivity; [now left|lia].
Defined.

Lemma download_parse_failure_witness :
  exists w',
    @download demo "http://x/{first_year}.nc" "out.nc" false (VBool false)
      [("filetype", VStr "data.nc"); ("first_year", VInt 1982)] empty_world
    = (Raise (PyCPT_ERROR
                "Please check what's downloaded from here, it may be a broken: http://x/1982.nc"),
       w')
    /\ files w' !! "/work/out.nc" = Some (bytes_of "abcdef").
Proof.
  apply (@download_parse_failure demo "http://x/{first_year}.nc" "out.nc" false
           (VBool false)
           [("filetype", VStr "data.nc"); ("first_year", VInt 1982)]
           "data.nc" "http://x/1982.nc" [] 200
           [bytes_of "abc"; bytes_of "de"; []; bytes_of "f"]
           empty_world); try reflexivity; [now right|lia].
Defined.

Lemma download_passes_download_errors_witness :
  (exists w',
      @download demo "http://x/missing" "out.nc" false (VBool false)
        [("filetype", VStr "data.nc")] empty_world = (Raise (HTTPError 404), w')
      /\ files w' = ∅)
  /\ (exists w',
        @download demo "http://x/a" "out.nc" false (VBool true)
          [("filetype", VStr "data.nc")] empty_world
        = (Raise (AssertionError msg_no_cookie), w')
        /\ files w' = ∅ /\ sent w' = []).
Proof.
  split.
  - apply (proj1 (@download_passes_download_errors demo "http://x/missing" "out.nc"
                    false (VBool false) [("filetype", VStr "data.nc")]
                    (VStr "data.nc") "http://x/missing" empty_world
                    eq_refl (or_intror eq_refl) eq_refl) [] 404 []);
      [reflexivity|reflexivity|lia].
  - apply (proj2 (@download_passes_download_errors demo "http://x/a" "out.nc"
                    false (VBool true) [("filetype", VStr "data.nc")]
                    (VStr "data.nc") "http://x/a" empty_world
                    eq_refl (or_intror eq_refl) eq_refl)); reflexivity.
Defined.

Lemma login_checks_decide_by_text_witness :
  stdout (snd (@s2s_login (demo_answering 200 "This dataset has  bytes")
                 "user@example.org" empty_world))
  = [msg_s2s_agreement +:+ newline]
  /\ stdout (snd (@s2s_login (demo_answering 200 "denied") "user@example.org"
                    empty_world))
     = [msg_incorrect_user +:+ newline; "denied" +:+ newline]
  /\ stdout (snd (@c3s_login (demo_answering 200 "denied") "user@example.org"
                    empty_world))
     = [msg_incorrect_user +:+ newline].
Proof.
  split; [|split].
  - rewrite (proj1 (@login_checks_decide_by_text
                      (demo_answering 200 "This dataset has  bytes")
                      "user@example.org" empty_world 200
                      [bytes_of "This dataset has  bytes"]
                      "This dataset has  bytes" ltac:(lia) eq_refl) eq_refl).
    reflexivity.
  - rewrite (proj1 (@login_checks_decide_by_text (demo_answering 200 "denied")
                      "user@example.org" empty_world 200 [bytes_of "denied"]
                      "denied" ltac:(lia) eq_refl) eq_refl).
    reflexivity.
  - rewrite (proj2 (@login_checks_decide_by_text (demo_answering 200 "denied")
                      "user@example.org" empty_world 200 [bytes_of "denied"]
                      "denied" ltac:(lia) eq_refl) eq_refl).
    reflexivity.
Defined.

Lemma login_checks_http_error_witness :
  fst (@s2s_login (demo_answering 403 "") "user@example.org" empty_world)
  = Raise (HTTPError 403)
  /\ fst (@c3s_login (demo_answering 403 "") "user@example.org" empty_world)
     = Raise (HTTPError 403).
Proof.
  split.
  - apply (proj1 (@login_checks_http_error (demo_answering 403 "")
                    "user@example.org" empty_world 403 [bytes_of ""] ltac:(lia))).
    reflexivity.
  - apply (proj2 (@login_checks_http_error (demo_answering 403 "")
                    "user@example.org" empty_world 403 [bytes_of ""] ltac:(lia))).
    reflexivity.
Defined.
